(** * bmp_utils.js: a shallow embedding of the BMP writer and its properties

    The JavaScript module [bmp_utils.js] builds a Windows bitmap in one
    [Uint8Array] and hands it to [writeFile].  This development embeds its
    functions one for one:

    - JavaScript numbers are integers of [Z] (every number the module computes
      from integer arguments is an integer; the model is exact as long as they
      stay below 2^53 in magnitude);
    - [undefined] and [NaN], which arise from reads outside an array, are
      values of their own ([value]);
    - the 32-bit operators [<<], [>>], [&], [|] go through [ToInt32];
    - the [Uint8Array] is a [list Z] of bytes, written through [u8_set], which
      converts with [ToUint8] and ignores an index outside the array;
    - the functions that can throw, and [saveAsBMP] itself, run in a small
      state-and-exception monad over a [store] holding the byte array and the
      files written so far. *)

From Stdlib Require Import ZArith Lia.
From stdpp Require Import base list strings.

Local Open Scope Z_scope.

(** ** JavaScript values and operators *)

Module Js.

Inductive value :=
| Num (z : Z)
| Undefined
| NaN.

(** [ToInt32]: wrap to the signed 32-bit range; [undefined] and [NaN] give 0. *)
Definition wrap32 (z : Z) : Z := (z + 2 ^ 31) mod 2 ^ 32 - 2 ^ 31.

Definition to_int32 (v : value) : Z :=
  match v with
  | Num z => wrap32 z
  | Undefined | NaN => 0
  end.

(** [ToUint8], the conversion of a store into a [Uint8Array]. *)
Definition to_uint8 (v : value) : Z :=
  match v with
  | Num z => z mod 256
  | Undefined | NaN => 0
  end.

(** [a + b] on numbers; [undefined] turns the sum into [NaN]. *)
Definition add (a b : value) : value :=
  match a, b with
  | Num x, Num y => Num (x + y)
  | _, _ => NaN
  end.

(** [a << n], [a >> n], [a & b], [a | b]: always a number, in the signed
    32-bit range. *)
Definition shl (a : value) (n : Z) : value :=
  Num (wrap32 (Z.shiftl (to_int32 a) n)).

Definition shr (a : value) (n : Z) : value :=
  Num (Z.shiftr (to_int32 a) n).

Definition and (a b : value) : value :=
  Num (Z.land (to_int32 a) (to_int32 b)).

Definition or (a b : value) : value :=
  Num (Z.lor (to_int32 a) (to_int32 b)).

(** The number behind a value that is known to be one (the result of a 32-bit
    operator): used where the source computes an index. *)
Definition num_of (v : value) : Z :=
  match v with
  | Num z => z
  | Undefined | NaN => 0
  end.

(** [Math.round] of the quotient [n / d] of two integers, [d > 0]: the nearest
    integer, a half rounded towards plus infinity. *)
Definition round_div (n d : Z) : Z := (2 * n + d) / (2 * d).

(** [a % b]: the remainder takes the sign of the dividend. *)
Definition rem (a b : Z) : Z := Z.rem a b.

(** [arr[i]] on an array of numbers: [undefined] outside [0 .. length-1]. *)
Definition arr_get (arr : list Z) (i : Z) : value :=
  if 0 <=? i then
    match arr !! Z.to_nat i with
    | Some z => Num z
    | None => Undefined
    end
  else Undefined.

(** [bytes[k]] and [bytes[k] = v] on a [Uint8Array]. A store outside the array
    is ignored. *)
Definition u8_get (bytes : list Z) (k : Z) : option Z :=
  if 0 <=? k then bytes !! Z.to_nat k else None.

Definition u8_set (bytes : list Z) (k : Z) (v : value) : list Z :=
  if 0 <=? k then <[Z.to_nat k := to_uint8 v]> bytes else bytes.

(** The errors the module can raise. *)
Inductive error :=
| TypeError_assignment_to_constant (name : string)
| ReferenceError_not_defined (name : string)
| RangeError_invalid_length (n : Z)
| IOError.

End Js.

Import Js.

(** ** Module constants *)

Definition FILE_HEADER_SIZE : Z := 14.
Definition IMG_HEADER_SIZE : Z := 40.
Definition _B : Z := 66.
Definition _M : Z := 77.
Definition PALETTE_BYTE_SIZE : Z := 4.
Definition PIX_1BIT : Z := 8.
Definition PIX_4BIT : Z := 2.
Definition DPI_200_PIX_PER_M : Z := 7874.

(** ** getPixelBytes *)

Record PixelBytes := {
  pixelSize : Z;
  rowSizeBase : Z;
  deltaBase : Z
}.

Definition getPixelBytes (width height encoding : Z) : PixelBytes :=
  let rowSize :=
    if encoding =? 1 then round_div width 8
    else if encoding =? 4 then round_div width 2
    else if encoding =? 8 then width
    else if encoding =? 16 then 2 * width
    else if encoding =? 24 then 3 * width
    else if encoding =? 32 then 4 * width
    else 3 * width in
  let delta := rem rowSize 4 in
  let rowSizeBase := rowSize in
  let rowSize := (rowSize - delta) + (if 0 <? delta then 4 else 0) in
  {| pixelSize := rowSize * height;
     rowSizeBase := rowSizeBase;
     deltaBase := rowSize - rowSizeBase |}.

(** The padded row size is not returned as such: it is [rowSizeBase] plus
    [deltaBase]. *)
Definition paddedRowSize (g : PixelBytes) : Z := rowSizeBase g + deltaBase g.

(** ** getPaletteBytes *)

Definition getPaletteBytes (encoding : Z) : Z :=
  if encoding =? 1 then 2 * PALETTE_BYTE_SIZE
  else if encoding =? 4 then 16 * PALETTE_BYTE_SIZE
  else if encoding =? 8 then 256 * PALETTE_BYTE_SIZE
  else 0.

(** ** split2bytes *)

Definition split2bytes (val : Z) : list value :=
  let byteSecond := shr (Num val) 8 in
  let byteThird := shr byteSecond 8 in
  let byteFourth := shr byteThird 8 in
  [and (Num val) (Num 255); and byteSecond (Num 255);
   and byteThird (Num 255); and byteFourth (Num 255)].

(** ** The store and the monad of the effectful functions *)

Record store := {
  heap : option (list Z);          (* the Uint8Array [bytes], once allocated *)
  disk : list (string * list Z);   (* what writeFile has written *)
  disk_fails : bool                (* whether writeFile rejects *)
}.

Definition initial_store (fails : bool) : store :=
  {| heap := None; disk := []; disk_fails := fails |}.

Inductive result (A : Type) :=
| Ok (a : A)
| Throw (e : error).
Arguments Ok {A} a.
Arguments Throw {A} e.

Definition M (A : Type) : Type := store -> result A * store.

Definition ret {A} (a : A) : M A := fun s => (Ok a, s).
Definition throw {A} (e : error) : M A := fun s => (Throw e, s).
Definition bind {A B} (m : M A) (f : A -> M B) : M B :=
  fun s => match m s with
           | (Ok a, s') => f a s'
           | (Throw e, s') => (Throw e, s')
           end.
Definition try_catch {A} (m : M A) (handler : error -> M A) : M A :=
  fun s => match m s with
           | (Ok a, s') => (Ok a, s')
           | (Throw e, s') => handler e s'
           end.

Notation "x <- m ;; f" := (bind m (fun x => f))
  (at level 100, m at next level, right associativity).
Notation "m ;;; f" := (bind m (fun _ => f))
  (at level 100, right associativity).

(** [new Uint8Array(n)]: zero-filled; a negative length is a RangeError. *)
Definition new_Uint8Array (n : Z) : M unit :=
  fun s => if n <? 0 then (Throw (RangeError_invalid_length n), s)
           else (Ok tt, {| heap := Some (replicate (Z.to_nat n) 0);
                           disk := disk s; disk_fails := disk_fails s |}).

(** The array behind [bytes], and an update of it in place. *)
Definition get_bytes : M (list Z) :=
  fun s => (Ok (default [] (heap s)), s).

Definition on_bytes (f : list Z -> list Z) : M unit :=
  fun s => (Ok tt, {| heap := f <$> heap s;
                      disk := disk s; disk_fails := disk_fails s |}).

(** [writeFile(name, bytes)], the external collaborator. *)
Definition writeFile (name : string) (bytes : list Z) : M unit :=
  fun s => if disk_fails s then (Throw IOError, s)
           else (Ok tt, {| heap := heap s;
                           disk := disk s ++ [(name, bytes)];
                           disk_fails := disk_fails s |}).

(** ** Loops *)

(** [bytes[k++] = v0; bytes[k++] = v1; ...]: consecutive stores from [k]. *)
Fixpoint u8_set_seq (bytes : list Z) (k : Z) (vals : list value) : list Z :=
  match vals with
  | [] => bytes
  | v :: vals' => u8_set_seq (u8_set bytes k v) (k + 1) vals'
  end.

(** [for (let i = 0; i < n; i += step) body]: the body runs
    [for_count n step] times, with [i = 0, step, 2 step, ...]. *)
Definition for_count (n step : Z) : nat := Z.to_nat ((n + step - 1) / step).

Fixpoint for_loop {S : Type} (count : nat) (i step : Z)
    (body : Z -> S -> S) (s : S) : S :=
  match count with
  | O => s
  | Datatypes.S count' => for_loop count' (i + step) step body (body i s)
  end.

(** ** createHeader *)

Definition item (l : list value) (i : nat) : value := nth i l Undefined.

(** The palette entry count createHeader derives from the depth. *)
Definition paletteItems (encoding : Z) : Z :=
  let paletteItems := 0 in
  let paletteItems := if encoding =? 1 then 2 else paletteItems in
  let paletteItems := if encoding =? 4 then 16 else paletteItems in
  let paletteItems := if encoding =? 8 then 256 else paletteItems in
  paletteItems.

(** The values stored at [bytes[0]] to [bytes[53]], in that order. *)
Definition header_fields (fileSize headerSize width height encoding : Z)
    : list value :=
  let f_byte := split2bytes fileSize in
  let h_byte := split2bytes headerSize in
  let width_byte := split2bytes width in
  let height_byte := split2bytes height in
  let resolution_byte := split2bytes DPI_200_PIX_PER_M in
  let palette_byte := split2bytes (paletteItems encoding) in
  [ (* 0 *) Num _B; Num _M;
    (* 2 *) item f_byte 0; item f_byte 1; item f_byte 2; item f_byte 3;
    (* 6 *) Num 0; Num 0; Num 0; Num 0;
    (* 10 *) item h_byte 0; item h_byte 1; item h_byte 2; item h_byte 3;
    (* 14 *) Num IMG_HEADER_SIZE; Num 0; Num 0; Num 0;
    (* 18 *) item width_byte 0; item width_byte 1;
             item width_byte 2; item width_byte 3;
    (* 22 *) item height_byte 0; item height_byte 1;
             item height_byte 2; item height_byte 3;
    (* 26 *) Num 1; Num 0;
    (* 28 *) Num encoding; Num 0;
    (* 30 *) Num 0; Num 0; Num 0; Num 0;
    (* 34 *) Num 0; Num 0; Num 0; Num 0;
    (* 38 *) item resolution_byte 0; item resolution_byte 1;
             item resolution_byte 2; item resolution_byte 3;
    (* 42 *) item resolution_byte 0; item resolution_byte 1;
             item resolution_byte 2; item resolution_byte 3;
    (* 46 *) item palette_byte 0; item palette_byte 1;
    (* 48 *) Num 0; Num 0;
    (* 50 *) Num 0; Num 0; Num 0; Num 0 ].

(** The byte array is left in the store; the two numbers returned with it are
    the result. *)
Definition createHeader (width height encoding : Z) : M (Z * Z) :=
  let g := getPixelBytes width height encoding in
  let paletteSize := getPaletteBytes encoding in
  let headerSize := FILE_HEADER_SIZE + IMG_HEADER_SIZE + paletteSize in
  let fileSize := headerSize + pixelSize g in
  new_Uint8Array fileSize ;;;
  on_bytes (fun bytes =>
    u8_set_seq bytes 0
      (header_fields fileSize headerSize width height encoding)) ;;;
  ret (rowSizeBase g, deltaBase g).

(** ** fillPalette *)

Record rgb := { R : Z; G : Z; B : Z }.

Fixpoint fillPalette_loop (palette : list rgb) (k : Z) (bytes : list Z)
    : list Z :=
  match palette with
  | [] => bytes
  | c :: palette' =>
      fillPalette_loop palette' (k + 4)
        (u8_set_seq bytes k [Num (R c); Num (G c); Num (B c); Num 0])
  end.

Definition fillPalette (bytes : list Z) (palette : list rgb) : list Z :=
  fillPalette_loop palette (FILE_HEADER_SIZE + IMG_HEADER_SIZE) bytes.

(** ** The pixel encoders for 1, 4 and 8 bits *)

(** The variables the three loops carry from one iteration to the next. *)
Record cursor := {
  c_bytes : list Z;
  c_k : Z;
  c_i_row : Z;
  c_i0 : Z          (* [i0]; in fillColorData_8, [i_active] *)
}.

(** The byte fillColorData_1 builds from the eight elements at [i_active]. *)
Definition pack8 (clArray : list Z) (i_active : Z) : value :=
  add (add (add (add (add (add (add
    (arr_get clArray (i_active + 7))
    (shl (arr_get clArray (i_active + 6)) 1))
    (shl (arr_get clArray (i_active + 5)) 2))
    (shl (arr_get clArray (i_active + 4)) 3))
    (shl (arr_get clArray (i_active + 3)) 4))
    (shl (arr_get clArray (i_active + 2)) 5))
    (shl (arr_get clArray (i_active + 1)) 6))
    (shl (arr_get clArray i_active) 7).

Definition fillColorData_1_body (clArray : list Z) (rowSize delta deltaRow : Z)
    (c : cursor) : cursor :=
  let i_active := num_of (shl (Num (c_i_row c)) 3) + c_i0 c in
  let bytes := u8_set (c_bytes c) (c_k c) (pack8 clArray i_active) in
  let k := c_k c + 1 in
  let i_row := c_i_row c + 1 in
  if i_row =? rowSize
  then {| c_bytes := bytes; c_k := k + delta; c_i_row := 0;
          c_i0 := c_i0 c - deltaRow |}
  else {| c_bytes := bytes; c_k := k; c_i_row := i_row; c_i0 := c_i0 c |}.

Definition fillColorData_1 (bytes : list Z) (clArray : list Z)
    (paletteSize rowSize delta : Z) : list Z :=
  let pointSize := Z.of_nat (length clArray) in
  let k := FILE_HEADER_SIZE + IMG_HEADER_SIZE + paletteSize in
  let i_row := 0 in
  let deltaRow := rowSize * PIX_1BIT in
  let i0 := pointSize - deltaRow in
  c_bytes
    (for_loop (for_count pointSize 8) 0 8
       (fun _ => fillColorData_1_body clArray rowSize delta deltaRow)
       {| c_bytes := bytes; c_k := k; c_i_row := i_row; c_i0 := i0 |}).

(** The byte fillColorData_4 builds from the two elements at [i_active]. *)
Definition pack2 (clArray : list Z) (i_active : Z) : value :=
  or (arr_get clArray (i_active + 1)) (shl (arr_get clArray i_active) 4).

Definition fillColorData_4_body (clArray : list Z) (rowSize delta deltaRow : Z)
    (c : cursor) : cursor :=
  let i_active := num_of (shl (Num (c_i_row c)) 1) + c_i0 c in
  let bytes := u8_set (c_bytes c) (c_k c) (pack2 clArray i_active) in
  let k := c_k c + 1 in
  let i_row := c_i_row c + 1 in
  if i_row =? rowSize
  then {| c_bytes := bytes; c_k := k + delta; c_i_row := 0;
          c_i0 := c_i0 c - deltaRow |}
  else {| c_bytes := bytes; c_k := k; c_i_row := i_row; c_i0 := c_i0 c |}.

Definition fillColorData_4 (bytes : list Z) (clArray : list Z)
    (paletteSize rowSize delta : Z) : list Z :=
  let k := FILE_HEADER_SIZE + IMG_HEADER_SIZE + paletteSize in
  let i_row := 0 in
  let pointSize := Z.of_nat (length clArray) in
  let deltaRow := rowSize * PIX_4BIT in
  let i0 := pointSize - deltaRow in
  c_bytes
    (for_loop (for_count pointSize 2) 0 2
       (fun _ => fillColorData_4_body clArray rowSize delta deltaRow)
       {| c_bytes := bytes; c_k := k; c_i_row := i_row; c_i0 := i0 |}).

Definition fillColorData_8_body (clArray : list Z) (rowSize delta : Z)
    (c : cursor) : cursor :=
  let i_active := c_i0 c in
  let bytes :=
    u8_set (c_bytes c) (c_k c) (arr_get clArray (i_active + c_i_row c)) in
  let k := c_k c + 1 in
  let i_row := c_i_row c + 1 in
  if i_row =? rowSize
  then {| c_bytes := bytes; c_k := k + delta; c_i_row := 0;
          c_i0 := i_active - rowSize |}
  else {| c_bytes := bytes; c_k := k; c_i_row := i_row; c_i0 := i_active |}.

Definition fillColorData_8 (bytes : list Z) (clArray : list Z)
    (paletteSize rowSize delta : Z) : list Z :=
  let pointSize := Z.of_nat (length clArray) in
  let i_row := 0 in
  let i_active := pointSize - rowSize in
  let k := FILE_HEADER_SIZE + IMG_HEADER_SIZE + paletteSize in
  c_bytes
    (for_loop (for_count pointSize 1) 0 1
       (fun _ => fillColorData_8_body clArray rowSize delta)
       {| c_bytes := bytes; c_k := k; c_i_row := i_row; c_i0 := i_active |}).

(** ** The pixel encoders for 16 and 24 bits *)

(** Both begin with [let k = FILE_HEADER_SIZE = 14 + IMG_HEADER_SIZE], an
    assignment to a module-level [const]; fillColorData_24 names [bytes], which
    is neither one of its parameters nor a module-level binding. Identifiers
    are therefore resolved through the scope of each function. *)
Inductive binding := Constant | Mutable.

Definition module_scope : list (string * binding) :=
  [ ("writeFile", Constant); ("FILE_HEADER_SIZE", Constant);
    ("IMG_HEADER_SIZE", Constant); ("_B", Constant); ("_M", Constant);
    ("PALETTE_BYTE_SIZE", Constant); ("PIX_1BIT", Constant);
    ("PIX_4BIT", Constant); ("DPI_200_PIX_PER_M", Constant);
    ("getPixelBytes", Constant); ("getPaletteBytes", Constant);
    ("split2bytes", Constant); ("createHeader", Constant);
    ("fillPalette", Constant); ("fillColorData_1", Constant);
    ("fillColorData_4", Constant); ("fillColorData_8", Constant);
    ("fillColorData_16", Constant); ("fillColorData_24", Constant);
    ("saveAsBMP", Constant) ]%string.

Definition scope_16 : list (string * binding) :=
  [ ("bytes", Mutable); ("clArray", Mutable); ("k", Mutable);
    ("pointSize", Constant); ("i", Mutable) ]%string ++ module_scope.

Definition scope_24 : list (string * binding) :=
  [ ("clArray", Mutable); ("k", Mutable);
    ("pointSize", Constant); ("i", Mutable) ]%string ++ module_scope.

Fixpoint resolve (scope : list (string * binding)) (name : string)
    : option binding :=
  match scope with
  | [] => None
  | (n, b) :: scope' => if String.eqb n name then Some b else resolve scope' name
  end.

(** [name = v] as an expression: its value is [v]. In strict mode an
    assignment to a [const] is a TypeError and one to an undeclared name a
    ReferenceError. *)
Definition assign (scope : list (string * binding)) (name : string) (v : Z)
    : M Z :=
  match resolve scope name with
  | Some Mutable => ret v
  | Some Constant => throw (TypeError_assignment_to_constant name)
  | None => throw (ReferenceError_not_defined name)
  end.

(** [name[k] = v], where [name], if it resolves, holds the byte array. *)
Definition store_via (scope : list (string * binding)) (name : string)
    (k : Z) (v : value) : M unit :=
  match resolve scope name with
  | Some _ => on_bytes (fun bytes => u8_set bytes k v)
  | None => throw (ReferenceError_not_defined name)
  end.

Fixpoint for_loop_M (count : nat) (i step : Z) (body : Z -> Z -> M Z) (k : Z)
    : M Z :=
  match count with
  | O => ret k
  | Datatypes.S count' =>
      k' <- body i k ;; for_loop_M count' (i + step) step body k'
  end.

Definition fillColorData_16_body (clArray : list Z) (i k : Z) : M Z :=
  store_via scope_16 "bytes" k (and (arr_get clArray i) (Num 255)) ;;;
  store_via scope_16 "bytes" (k + 1)
    (and (shr (arr_get clArray i) 8) (Num 255)) ;;;
  ret (k + 2).

Definition fillColorData_16 (clArray : list Z) : M unit :=
  k <- assign scope_16 "FILE_HEADER_SIZE" (14 + IMG_HEADER_SIZE) ;;
  let pointSize := Z.of_nat (length clArray) in
  for_loop_M (for_count pointSize 1) 0 1 (fillColorData_16_body clArray) k ;;;
  ret tt.

Definition fillColorData_24_body (clArray : list Z) (i k : Z) : M Z :=
  store_via scope_24 "bytes" k (and (arr_get clArray i) (Num 255)) ;;;
  store_via scope_24 "bytes" (k + 1)
    (and (shr (arr_get clArray i) 8) (Num 255)) ;;;
  store_via scope_24 "bytes" (k + 2)
    (and (shr (arr_get clArray i) 16) (Num 255)) ;;;
  ret (k + 3).

Definition fillColorData_24 (clArray : list Z) : M unit :=
  k <- assign scope_24 "FILE_HEADER_SIZE" (14 + IMG_HEADER_SIZE) ;;
  let pointSize := Z.of_nat (length clArray) in
  for_loop_M (for_count pointSize 1) 0 1 (fillColorData_24_body clArray) k ;;;
  ret tt.

(** ** saveAsBMP *)

(** The [switch] of saveAsBMP. fillColorData_24 has one parameter and is
    called with [(bytes, clArray)]: its [clArray] is the byte array. *)
Definition encodePixels (encoding : Z) (clArray : list Z)
    (paletteSize rowSizeBase deltaBase : Z) : M unit :=
  if encoding =? 1 then
    on_bytes (fun bytes =>
      fillColorData_1 bytes clArray paletteSize rowSizeBase deltaBase)
  else if encoding =? 4 then
    on_bytes (fun bytes =>
      fillColorData_4 bytes clArray paletteSize rowSizeBase deltaBase)
  else if encoding =? 8 then
    on_bytes (fun bytes =>
      fillColorData_8 bytes clArray paletteSize rowSizeBase deltaBase)
  else if encoding =? 16 then fillColorData_16 clArray
  else (bytes <- get_bytes ;; fillColorData_24 bytes).

(** The result is that of the promise: [Ok 0] or [Ok 1] when it resolves,
    [Throw] when it rejects. *)
Definition saveAsBMP (clArray : list Z) (width height encoding : Z)
    (name : string) (palette : list rgb) : M Z :=
  g <- createHeader width height encoding ;;
  let '(rowSizeBase, deltaBase) := g in
  let paletteSize := Z.of_nat (length palette) * PALETTE_BYTE_SIZE in
  (if 0 <? paletteSize then on_bytes (fun bytes => fillPalette bytes palette)
   else ret tt) ;;;
  encodePixels encoding clArray paletteSize rowSizeBase deltaBase ;;;
  bytes <- get_bytes ;;
  try_catch (writeFile name bytes ;;; ret 0) (fun err => ret 1).

(** ** Reading a byte array back *)

Definition byte_at (bytes : list Z) (k : Z) : Z := default 0 (u8_get bytes k).

(** Little-endian fields of two and of four bytes. *)
Definition le16 (bytes : list Z) (k : Z) : Z :=
  byte_at bytes k + 2 ^ 8 * byte_at bytes (k + 1).

Definition le32 (bytes : list Z) (k : Z) : Z :=
  byte_at bytes k + 2 ^ 8 * byte_at bytes (k + 1)
  + 2 ^ 16 * byte_at bytes (k + 2) + 2 ^ 24 * byte_at bytes (k + 3).

(** The byte array a run leaves in the store. *)
Definition bytes_of {A} (out : result A * store) : list Z :=
  default [] (heap (snd out)).

(** ** The shape the loops for 1, 4 and 8 bits share *)

Section RowScan.
Variable cell : Z -> Z -> value.      (* the byte for [i_row] and [i0] *)
Variables rowSize delta deltaRow : Z.

Definition scan_body (c : cursor) : cursor :=
  let bytes := u8_set (c_bytes c) (c_k c) (cell (c_i_row c) (c_i0 c)) in
  if c_i_row c + 1 =? rowSize
  then {| c_bytes := bytes; c_k := c_k c + 1 + delta; c_i_row := 0;
          c_i0 := c_i0 c - deltaRow |}
  else {| c_bytes := bytes; c_k := c_k c + 1; c_i_row := c_i_row c + 1;
          c_i0 := c_i0 c |}.

Fixpoint scan (n : nat) (c : cursor) : cursor :=
  match n with
  | O => c
  | Datatypes.S n' => scan n' (scan_body c)
  end.
End RowScan.

Definition cell_1 (clArray : list Z) (i_row i0 : Z) : value :=
  pack8 clArray (num_of (shl (Num i_row) 3) + i0).

Definition cell_4 (clArray : list Z) (i_row i0 : Z) : value :=
  pack2 clArray (num_of (shl (Num i_row) 1) + i0).

Definition cell_8 (clArray : list Z) (i_row i_active : Z) : value :=
  arr_get clArray (i_active + i_row).

Definition supported_depth (encoding : Z) : Prop :=
  encoding = 1 \/ encoding = 4 \/ encoding = 8 \/ encoding = 16
  \/ encoding = 24.

Definition indexed_depth (encoding : Z) : Prop :=
  encoding = 1 \/ encoding = 4 \/ encoding = 8.

(** Bits per pixel times width, over 8, rounded up. *)
Definition ceil_div (n d : Z) : Z := (n + d - 1) / d.

(** The size createHeader gives the byte array. *)
Definition fileByteSize (width height encoding : Z) : Z :=
  FILE_HEADER_SIZE + IMG_HEADER_SIZE + getPaletteBytes encoding
  + pixelSize (getPixelBytes width height encoding).

(** The byte array as createHeader leaves it. *)
Definition headerBytes (width height encoding : Z) : list Z :=
  u8_set_seq (replicate (Z.to_nat (fileByteSize width height encoding)) 0) 0
    (header_fields (fileByteSize width height encoding)
       (FILE_HEADER_SIZE + IMG_HEADER_SIZE + getPaletteBytes encoding)
       width height encoding).

(** The byte array after the palette stage, and after the pixel stage of an
    indexed depth. *)
Definition paletteBytes (width height encoding : Z) (palette : list rgb)
    : list Z :=
  fillPalette (headerBytes width height encoding) palette.

Definition filledBytes (clArray : list Z) (width height encoding : Z)
    (palette : list rgb) : list Z :=
  let g := getPixelBytes width height encoding in
  let paletteSize := Z.of_nat (length palette) * PALETTE_BYTE_SIZE in
  let bytes := paletteBytes width height encoding palette in
  if encoding =? 1 then
    fillColorData_1 bytes clArray paletteSize (rowSizeBase g) (deltaBase g)
  else if encoding =? 4 then
    fillColorData_4 bytes clArray paletteSize (rowSizeBase g) (deltaBase g)
  else
    fillColorData_8 bytes clArray paletteSize (rowSizeBase g) (deltaBase g).

(** Every channel of every palette entry is a byte. *)
Definition is_byte (z : Z) : bool := (0 <=? z) && (z <? 256).

Definition channels_in_range (palette : list rgb) : bool :=
  forallb (fun c => is_byte (R c) && is_byte (G c) && is_byte (B c)) palette.

(** Every element of a 1-bit pixel array is 0 or 1. *)
Definition binary_pixels (clArray : list Z) : bool :=
  forallb (fun z => (z =? 0) || (z =? 1)) clArray.

(** [n] bytes of the array from offset [k] on. *)
Definition slice (bytes : list Z) (k n : nat) : list Z := take n (drop k bytes).

(** Every element of a 4-bit pixel array is a palette index, 0 to 15. *)
Definition nibble_pixels (clArray : list Z) : bool :=
  forallb (fun z => (0 <=? z) && (z <? 16)) clArray.

(** * Properties *)

(** ** Arithmetic of getPixelBytes *)


Ltac depth_cases H :=
  unfold supported_depth in H;
  destruct H as [H | [H | [H | [H | H]]]]; subst.

Lemma rowSizeBase_1 width height :
  rowSizeBase (getPixelBytes width height 1) = (width + 4) / 8.
Proof.
  cbn. unfold round_div. Z.to_euclidean_division_equations. lia.
Qed.

Lemma rowSizeBase_ceiling width height encoding :
  encoding = 4 \/ encoding = 8 \/ encoding = 16 \/ encoding = 24 ->
  rowSizeBase (getPixelBytes width height encoding)
  = ceil_div (encoding * width) 8.
Proof.
  intros [H | [H | [H | H]]]; subst; cbn; unfold round_div, ceil_div;
    Z.to_euclidean_division_equations; lia.
Qed.

Lemma rowSizeBase_nonneg width height encoding :
  0 <= width -> 0 <= rowSizeBase (getPixelBytes width height encoding).
Proof.
  intros Hw. unfold getPixelBytes; cbn [rowSizeBase]. unfold round_div.
  repeat case_match; Z.to_euclidean_division_equations; lia.
Qed.

Lemma deltaBase_range width height encoding :
  0 <= deltaBase (getPixelBytes width height encoding) <= 3.
Proof.
  unfold getPixelBytes; cbn [deltaBase]. unfold rem.
  set (r := if encoding =? 1 then _ else _). clearbody r.
  destruct (Z.ltb_spec 0 (Z.rem r 4));
    Z.to_euclidean_division_equations; lia.
Qed.

Lemma pixelSize_padded width height encoding :
  pixelSize (getPixelBytes width height encoding)
  = paddedRowSize (getPixelBytes width height encoding) * height.
Proof.
  unfold paddedRowSize, getPixelBytes; cbn [pixelSize rowSizeBase deltaBase].
  f_equal. lia.
Qed.

Lemma paddedRowSize_nonneg width height encoding :
  0 <= width -> 0 <= paddedRowSize (getPixelBytes width height encoding).
Proof.
  intros Hw. unfold paddedRowSize.
  pose proof (rowSizeBase_nonneg width height encoding Hw).
  pose proof (deltaBase_range width height encoding). lia.
Qed.

(** C3, at the input where the code departs from it: a 1-bit row of one pixel
    needs [ceil(1 * 1 / 8) = 1] byte, and getPixelBytes, which rounds to the
    nearest integer, returns a [rowSizeBase] of 0 (and lays out no pixel data
    at all). *)
Theorem C3_rowSizeBase_one_bit_is_rounded :
  rowSizeBase (getPixelBytes 1 1 1) = 0
  /\ ceil_div (1 * 1) 8 = 1
  /\ pixelSize (getPixelBytes 1 1 1) = 0.
Proof. repeat split; reflexivity. Qed.

(** C9: for a positive width and a supported depth, the padded row size (that
    is [rowSizeBase + deltaBase], with [pixelSize] being it times the height)
    is the smallest multiple of 4 that is at least [rowSizeBase]; so it is a
    multiple of 4 and the padding [deltaBase] is 0, 1, 2 or 3. *)
Theorem C9_padded_row_is_least_multiple_of_4 width height encoding :
  0 < width -> supported_depth encoding ->
  let g := getPixelBytes width height encoding in
  paddedRowSize g mod 4 = 0
  /\ rowSizeBase g <= paddedRowSize g
  /\ (forall m, m mod 4 = 0 -> rowSizeBase g <= m -> paddedRowSize g <= m)
  /\ (paddedRowSize g - rowSizeBase g = 0 \/ paddedRowSize g - rowSizeBase g = 1
      \/ paddedRowSize g - rowSizeBase g = 2
      \/ paddedRowSize g - rowSizeBase g = 3)
  /\ pixelSize g = paddedRowSize g * height.
Proof.
  intros Hw Hd g.
  assert (Hb : 0 <= rowSizeBase g)
    by (apply rowSizeBase_nonneg; lia).
  split_and!; [ | | | | apply pixelSize_padded ];
    subst g; revert Hb;
    unfold paddedRowSize, getPixelBytes; cbn [rowSizeBase deltaBase];
    unfold rem;
    set (r := if encoding =? 1 then _ else _); clearbody r; intros Hb.
  - destruct (Z.ltb_spec 0 (Z.rem r 4));
      Z.to_euclidean_division_equations; lia.
  - destruct (Z.ltb_spec 0 (Z.rem r 4));
      Z.to_euclidean_division_equations; lia.
  - intros m Hm Hle. destruct (Z.ltb_spec 0 (Z.rem r 4));
      Z.to_euclidean_division_equations; lia.
  - destruct (Z.ltb_spec 0 (Z.rem r 4));
      Z.to_euclidean_division_equations; lia.
Qed.

Lemma C9_witness :
  let g := getPixelBytes 5 2 24 in
  paddedRowSize g mod 4 = 0
  /\ rowSizeBase g <= paddedRowSize g
  /\ (forall m, m mod 4 = 0 -> rowSizeBase g <= m -> paddedRowSize g <= m)
  /\ (paddedRowSize g - rowSizeBase g = 0 \/ paddedRowSize g - rowSizeBase g = 1
      \/ paddedRowSize g - rowSizeBase g = 2
      \/ paddedRowSize g - rowSizeBase g = 3)
  /\ pixelSize g = paddedRowSize g * 2.
Proof.
  apply (C9_padded_row_is_least_multiple_of_4 5 2 24).
  - lia.
  - unfold supported_depth. lia.
Defined.

(** ** Stores into the byte array *)

Lemma length_u8_set bytes k v : length (u8_set bytes k v) = length bytes.
Proof. unfold u8_set. case_match; [apply length_insert | reflexivity]. Qed.

Lemma u8_get_set_eq bytes k v :
  0 <= k < Z.of_nat (length bytes) ->
  u8_get (u8_set bytes k v) k = Some (to_uint8 v).
Proof.
  intros Hk. unfold u8_get, u8_set.
  destruct (Z.leb_spec 0 k); [ | lia ].
  apply list_lookup_insert_eq. lia.
Qed.

Lemma u8_get_set_ne bytes k v p :
  p <> k -> u8_get (u8_set bytes k v) p = u8_get bytes p.
Proof.
  intros Hne. unfold u8_get, u8_set.
  destruct (Z.leb_spec 0 p); [ | reflexivity ].
  destruct (Z.leb_spec 0 k); [ | reflexivity ].
  apply list_lookup_insert_ne. lia.
Qed.

Lemma u8_get_Some_lt bytes p z :
  u8_get bytes p = Some z -> 0 <= p < Z.of_nat (length bytes).
Proof.
  unfold u8_get. destruct (Z.leb_spec 0 p); [ | discriminate ].
  intros Hl. apply lookup_lt_Some in Hl. lia.
Qed.

Lemma u8_get_replicate n p :
  0 <= p < Z.of_nat n -> u8_get (replicate n 0) p = Some 0.
Proof.
  intros Hp. unfold u8_get. destruct (Z.leb_spec 0 p); [ | lia ].
  apply lookup_replicate_2. lia.
Qed.

Lemma length_u8_set_seq vals : forall bytes k,
  length (u8_set_seq bytes k vals) = length bytes.
Proof.
  induction vals as [ | v vals IH ]; intros bytes k; cbn; [ reflexivity | ].
  rewrite IH. apply length_u8_set.
Qed.

Lemma u8_get_set_seq_lt vals : forall bytes k p,
  p < k -> u8_get (u8_set_seq bytes k vals) p = u8_get bytes p.
Proof.
  induction vals as [ | v vals IH ]; intros bytes k p Hp; cbn;
    [ reflexivity | ].
  rewrite IH by lia. apply u8_get_set_ne. lia.
Qed.

Lemma u8_get_set_seq_ge vals : forall bytes k p,
  k + Z.of_nat (length vals) <= p ->
  u8_get (u8_set_seq bytes k vals) p = u8_get bytes p.
Proof.
  induction vals as [ | v vals IH ]; intros bytes k p Hp; cbn in *;
    [ reflexivity | ].
  rewrite IH by lia. apply u8_get_set_ne. lia.
Qed.

Lemma u8_get_set_seq_in vals : forall bytes k (j : nat) v,
  0 <= k -> vals !! j = Some v ->
  k + Z.of_nat j < Z.of_nat (length bytes) ->
  u8_get (u8_set_seq bytes k vals) (k + Z.of_nat j) = Some (to_uint8 v).
Proof.
  induction vals as [ | v0 vals IH ]; intros bytes k j v Hk Hj Hlen;
    [ discriminate | ].
  cbn [u8_set_seq]. destruct j as [ | j ].
  - injection Hj as ->. rewrite Z.add_0_r.
    rewrite u8_get_set_seq_lt by lia. apply u8_get_set_eq. lia.
  - replace (k + Z.of_nat (S j)) with (k + 1 + Z.of_nat j) by lia.
    apply IH; [ lia | exact Hj | rewrite length_u8_set; lia ].
Qed.

(** ** fillPalette *)

Lemma length_fillPalette_loop palette : forall k bytes,
  length (fillPalette_loop palette k bytes) = length bytes.
Proof.
  induction palette as [ | c palette IH ]; intros k bytes;
    cbn [fillPalette_loop]; [ reflexivity | ].
  rewrite IH. apply length_u8_set_seq.
Qed.

Lemma fillPalette_loop_lt palette : forall k bytes p,
  p < k -> u8_get (fillPalette_loop palette k bytes) p = u8_get bytes p.
Proof.
  induction palette as [ | c palette IH ]; intros k bytes p Hp;
    cbn [fillPalette_loop]; [ reflexivity | ].
  rewrite IH by lia. apply u8_get_set_seq_lt. assumption.
Qed.

Lemma fillPalette_loop_ge palette : forall k bytes p,
  k + 4 * Z.of_nat (length palette) <= p ->
  u8_get (fillPalette_loop palette k bytes) p = u8_get bytes p.
Proof.
  induction palette as [ | c palette IH ]; intros k bytes p Hp;
    cbn [fillPalette_loop length] in *; [ reflexivity | ].
  rewrite IH by lia. apply u8_get_set_seq_ge. cbn [length]. lia.
Qed.

Lemma fillPalette_loop_entry palette : forall k bytes (i : nat) c (j : nat) v,
  0 <= k -> palette !! i = Some c ->
  [Num (R c); Num (G c); Num (B c); Num 0] !! j = Some v ->
  k + 4 * Z.of_nat i + Z.of_nat j < Z.of_nat (length bytes) ->
  u8_get (fillPalette_loop palette k bytes) (k + 4 * Z.of_nat i + Z.of_nat j)
  = Some (to_uint8 v).
Proof.
  induction palette as [ | c0 palette IH ]; intros k bytes i c j v Hk Hi Hj Hlen;
    [ discriminate | ].
  assert (Hj4 : (j < 4)%nat) by (apply lookup_lt_Some in Hj; exact Hj).
  cbn [fillPalette_loop]. destruct i as [ | i ].
  - injection Hi as ->.
    rewrite fillPalette_loop_lt by lia.
    replace (k + 4 * Z.of_nat 0 + Z.of_nat j) with (k + Z.of_nat j) by lia.
    apply u8_get_set_seq_in; [ lia | assumption | lia ].
  - replace (k + 4 * Z.of_nat (S i) + Z.of_nat j)
      with (k + 4 + 4 * Z.of_nat i + Z.of_nat j) by lia.
    apply (IH _ _ _ c); [ lia | exact Hi | assumption | ].
    rewrite length_u8_set_seq. lia.
Qed.

Lemma length_fillPalette bytes palette :
  length (fillPalette bytes palette) = length bytes.
Proof. apply length_fillPalette_loop. Qed.

(** ** The loops for 1, 4 and 8 bits *)

(** [for_count n step] is the number of [i] among 0, step, 2 step, ... that
    pass the test [i < n]. *)
Lemma for_count_spec n step (j : nat) :
  0 < step -> (j < for_count n step)%nat <-> Z.of_nat j * step < n.
Proof.
  intros Hstep. unfold for_count.
  destruct (Z.le_gt_cases ((n + step - 1) / step) 0) as [Hle | Hgt].
  - rewrite Z2Nat.nonpos by assumption.
    split; [ lia | ]. intros Hj. exfalso.
    revert Hle. Z.to_euclidean_division_equations. nia.
  - split; intros Hj.
    + assert (Z.of_nat j < (n + step - 1) / step) by lia.
      revert H. Z.to_euclidean_division_equations. nia.
    + assert (Z.of_nat j < (n + step - 1) / step); [ | lia ].
      revert Hj. Z.to_euclidean_division_equations. nia.
Qed.

Lemma for_loop_const {S : Type} (f : S -> S) n : forall i step s,
  for_loop n i step (fun _ => f) s = Nat.iter n f s.
Proof.
  induction n as [ | n IH ]; intros i step s; [ reflexivity | ].
  cbn [for_loop]. rewrite IH. symmetry. apply Nat.iter_succ_r.
Qed.

Lemma scan_iter cell rowSize delta deltaRow n : forall c,
  Nat.iter n (scan_body cell rowSize delta deltaRow) c
  = scan cell rowSize delta deltaRow n c.
Proof.
  induction n as [ | n IH ]; intros c; [ reflexivity | ].
  rewrite Nat.iter_succ_r. apply IH.
Qed.

Lemma fillColorData_1_scan bytes clArray paletteSize rowSize delta :
  fillColorData_1 bytes clArray paletteSize rowSize delta
  = c_bytes (scan (cell_1 clArray) rowSize delta (rowSize * PIX_1BIT)
      (for_count (Z.of_nat (length clArray)) 8)
      {| c_bytes := bytes;
         c_k := FILE_HEADER_SIZE + IMG_HEADER_SIZE + paletteSize;
         c_i_row := 0;
         c_i0 := Z.of_nat (length clArray) - rowSize * PIX_1BIT |}).
Proof.
  unfold fillColorData_1. rewrite for_loop_const, <- scan_iter. reflexivity.
Qed.

Lemma fillColorData_4_scan bytes clArray paletteSize rowSize delta :
  fillColorData_4 bytes clArray paletteSize rowSize delta
  = c_bytes (scan (cell_4 clArray) rowSize delta (rowSize * PIX_4BIT)
      (for_count (Z.of_nat (length clArray)) 2)
      {| c_bytes := bytes;
         c_k := FILE_HEADER_SIZE + IMG_HEADER_SIZE + paletteSize;
         c_i_row := 0;
         c_i0 := Z.of_nat (length clArray) - rowSize * PIX_4BIT |}).
Proof.
  unfold fillColorData_4. rewrite for_loop_const, <- scan_iter. reflexivity.
Qed.

Lemma fillColorData_8_scan bytes clArray paletteSize rowSize delta :
  fillColorData_8 bytes clArray paletteSize rowSize delta
  = c_bytes (scan (cell_8 clArray) rowSize delta rowSize
      (for_count (Z.of_nat (length clArray)) 1)
      {| c_bytes := bytes;
         c_k := FILE_HEADER_SIZE + IMG_HEADER_SIZE + paletteSize;
         c_i_row := 0;
         c_i0 := Z.of_nat (length clArray) - rowSize |}).
Proof.
  unfold fillColorData_8. rewrite for_loop_const, <- scan_iter. reflexivity.
Qed.

Section RowScanFacts.
Variable cell : Z -> Z -> value.
Variables rowSize delta deltaRow : Z.
Hypothesis delta_nonneg : 0 <= delta.

Local Abbreviation body := (scan_body cell rowSize delta deltaRow).
Local Abbreviation run := (scan cell rowSize delta deltaRow).

Lemma scan_body_length c : length (c_bytes (body c)) = length (c_bytes c).
Proof.
  unfold scan_body. case_match; cbn [c_bytes]; apply length_u8_set.
Qed.

Lemma scan_body_k c : c_k c < c_k (body c).
Proof. unfold scan_body. case_match; cbn [c_k]; lia. Qed.

Lemma scan_body_frame c p :
  p <> c_k c -> u8_get (c_bytes (body c)) p = u8_get (c_bytes c) p.
Proof.
  intros Hp. unfold scan_body.
  case_match; cbn [c_bytes]; apply u8_get_set_ne; assumption.
Qed.

Lemma scan_length n : forall c,
  length (c_bytes (run n c)) = length (c_bytes c).
Proof.
  induction n as [ | n IH ]; intros c; cbn [scan]; [ reflexivity | ].
  rewrite IH. apply scan_body_length.
Qed.

(** The loop never writes below its starting cursor. *)
Lemma scan_frame n : forall c p,
  p < c_k c -> u8_get (c_bytes (run n c)) p = u8_get (c_bytes c) p.
Proof.
  induction n as [ | n IH ]; intros c p Hp; cbn [scan]; [ reflexivity | ].
  pose proof (scan_body_k c).
  rewrite IH by lia. apply scan_body_frame. lia.
Qed.

Hypothesis rowSize_pos : 0 < rowSize.

(** With rows of [rowSize > 0] bytes, the [j]-th iteration from a cursor at
    column [c_i_row c] writes the cell of column [(c_i_row c + j) mod rowSize],
    [q = (c_i_row c + j) / rowSize] rows further, [q] paddings beyond
    [c_k c + j]. *)
Lemma scan_written n : forall c (j : nat),
  (j < n)%nat -> 0 <= c_i_row c < rowSize -> 0 <= c_k c ->
  let q := (c_i_row c + Z.of_nat j) / rowSize in
  let r := (c_i_row c + Z.of_nat j) mod rowSize in
  c_k c + Z.of_nat j + q * delta < Z.of_nat (length (c_bytes c)) ->
  u8_get (c_bytes (run n c)) (c_k c + Z.of_nat j + q * delta)
  = Some (to_uint8 (cell r (c_i0 c - q * deltaRow))).
Proof.
  induction n as [ | n IH ]; intros c j Hj Hrow Hk q r Hlen; [ lia | ].
  cbn [scan]. destruct j as [ | j ].
  - subst q r.
    replace (c_i_row c + Z.of_nat 0) with (c_i_row c) in * by lia.
    rewrite Z.div_small in * by lia. rewrite Z.mod_small by lia.
    replace (c_k c + Z.of_nat 0 + 0 * delta) with (c_k c) in * by lia.
    replace (c_i0 c - 0 * deltaRow) with (c_i0 c) by lia.
    pose proof (scan_body_k c).
    rewrite scan_frame by lia.
    unfold scan_body. case_match; cbn [c_bytes]; apply u8_get_set_eq; lia.
  - assert (Hj' : (j < n)%nat) by lia.
    specialize (IH (body c) j Hj').
    pose proof (scan_body_length c) as Hbl.
    unfold scan_body in IH, Hbl |- *.
    destruct (Z.eqb_spec (c_i_row c + 1) rowSize) as [Heq | Hne];
      cbn [c_bytes c_k c_i_row c_i0] in IH, Hbl |- *.
    + assert (Hq : q = 1 + (0 + Z.of_nat j) / rowSize).
      { subst q. replace (c_i_row c + Z.of_nat (S j))
          with (1 * rowSize + (0 + Z.of_nat j)) by lia.
        rewrite Z.div_add_l by lia. reflexivity. }
      assert (Hr : r = (0 + Z.of_nat j) mod rowSize).
      { subst r. replace (c_i_row c + Z.of_nat (S j))
          with ((0 + Z.of_nat j) + 1 * rowSize) by lia.
        apply Z.mod_add. lia. }
      clearbody q r. subst q r.
      replace (c_k c + Z.of_nat (S j)
               + (1 + (0 + Z.of_nat j) / rowSize) * delta)
        with (c_k c + 1 + delta + Z.of_nat j
              + (0 + Z.of_nat j) / rowSize * delta) in * by lia.
      replace (c_i0 c - (1 + (0 + Z.of_nat j) / rowSize) * deltaRow)
        with (c_i0 c - deltaRow - (0 + Z.of_nat j) / rowSize * deltaRow)
        by lia.
      apply IH; lia.
    + assert (Hq : q = (c_i_row c + 1 + Z.of_nat j) / rowSize).
      { subst q. f_equal. lia. }
      assert (Hr : r = (c_i_row c + 1 + Z.of_nat j) mod rowSize).
      { subst r. f_equal. lia. }
      clearbody q r. subst q r.
      replace (c_k c + Z.of_nat (S j)
               + (c_i_row c + 1 + Z.of_nat j) / rowSize * delta)
        with (c_k c + 1 + Z.of_nat j
              + (c_i_row c + 1 + Z.of_nat j) / rowSize * delta) in * by lia.
      apply IH; lia.
Qed.

(** From the start of a row: byte [col] of file row [row] holds the cell of
    column [col], [row] rows up from the one the loop began with. *)
Lemma scan_rows n c row col :
  c_i_row c = 0 -> 0 <= c_k c ->
  0 <= row -> 0 <= col < rowSize ->
  row * rowSize + col < Z.of_nat n ->
  c_k c + row * (rowSize + delta) + col < Z.of_nat (length (c_bytes c)) ->
  u8_get (c_bytes (run n c)) (c_k c + row * (rowSize + delta) + col)
  = Some (to_uint8 (cell col (c_i0 c - row * deltaRow))).
Proof.
  intros Hrow0 Hk Hrow Hcol Hn Hlen.
  pose proof (scan_written n c (Z.to_nat (row * rowSize + col))) as H.
  cbv zeta in H. rewrite Hrow0, Z.add_0_l in H.
  rewrite Z2Nat.id in H by nia.
  assert (Hq : (row * rowSize + col) / rowSize = row).
  { rewrite Z.div_add_l by lia. rewrite Z.div_small by lia. lia. }
  assert (Hr : (row * rowSize + col) mod rowSize = col).
  { rewrite Z.add_comm, Z.mod_add by lia. apply Z.mod_small. lia. }
  rewrite Hq, Hr in H.
  replace (c_k c + (row * rowSize + col) + row * delta)
    with (c_k c + row * (rowSize + delta) + col) in H by lia.
  apply H; lia.
Qed.
(** The cursor after one iteration, seen from the next one. *)
Lemma scan_body_position c (j : nat) :
  0 <= c_i_row c < rowSize ->
  0 <= c_i_row (body c) < rowSize
  /\ c_k (body c) + Z.of_nat j
     + (c_i_row (body c) + Z.of_nat j) / rowSize * delta
     = c_k c + Z.of_nat (S j)
       + (c_i_row c + Z.of_nat (S j)) / rowSize * delta.
Proof.
  intros Hrow. unfold scan_body.
  destruct (Z.eqb_spec (c_i_row c + 1) rowSize) as [Heq | Hne];
    cbn [c_k c_i_row]; (split; [ lia | ]).
  - replace (c_i_row c + Z.of_nat (S j))
      with (1 * rowSize + (0 + Z.of_nat j)) by lia.
    rewrite Z.div_add_l by lia. lia.
  - replace (c_i_row c + Z.of_nat (S j))
      with (c_i_row c + 1 + Z.of_nat j) by lia.
    lia.
Qed.

(** A byte at none of the positions the loop visits keeps its value. *)
Lemma scan_untouched n : forall c p,
  0 <= c_i_row c < rowSize ->
  (forall j : nat, (j < n)%nat ->
     p <> c_k c + Z.of_nat j + (c_i_row c + Z.of_nat j) / rowSize * delta) ->
  u8_get (c_bytes (run n c)) p = u8_get (c_bytes c) p.
Proof.
  induction n as [ | n IH ]; intros c p Hrow Hp; cbn [scan]; [ reflexivity | ].
  rewrite IH.
  - apply scan_body_frame. specialize (Hp 0%nat ltac:(lia)).
    replace (c_i_row c + Z.of_nat 0) with (c_i_row c) in Hp by lia.
    rewrite Z.div_small in Hp by lia. lia.
  - apply (scan_body_position c 0 Hrow).
  - intros j Hj. destruct (scan_body_position c j Hrow) as [_ ->].
    apply Hp. lia.
Qed.

(** So the [delta] bytes after the [rowSize] bytes of a file row are left as
    they were. *)
Lemma scan_padding n c row col :
  c_i_row c = 0 -> 0 <= row -> rowSize <= col < rowSize + delta ->
  u8_get (c_bytes (run n c)) (c_k c + row * (rowSize + delta) + col)
  = u8_get (c_bytes c) (c_k c + row * (rowSize + delta) + col).
Proof.
  intros Hrow0 Hrow Hcol. apply scan_untouched; [ lia | ].
  intros j _. rewrite Hrow0, Z.add_0_l.
  pose proof (Z.div_mod (Z.of_nat j) rowSize ltac:(lia)) as Hdm.
  pose proof (Z.mod_pos_bound (Z.of_nat j) rowSize rowSize_pos) as Hr.
  set (q := Z.of_nat j / rowSize) in *.
  set (r := Z.of_nat j mod rowSize) in *.
  rewrite Hdm. intros Heq.
  assert (Hm : (q - row) * (rowSize + delta) = col - r) by lia.
  assert (Hq : q - row <= 0 \/ 1 <= q - row) by lia.
  destruct Hq; nia.
Qed.
End RowScanFacts.

(** ** split2bytes and the header *)

Lemma wrap32_small z : - 2 ^ 31 <= z < 2 ^ 31 -> wrap32 z = z.
Proof. intros Hz. unfold wrap32. rewrite Z.mod_small; lia. Qed.

Lemma wrap32_range z : - 2 ^ 31 <= wrap32 z < 2 ^ 31.
Proof.
  unfold wrap32. pose proof (Z.mod_pos_bound (z + 2 ^ 31) (2 ^ 32)). lia.
Qed.

Lemma land_255 z : Z.land z 255 = z mod 256.
Proof. change 255 with (Z.ones 8). rewrite Z.land_ones by lia. reflexivity. Qed.

(** The four bytes of [split2bytes val], as stored, are the little-endian
    digits of [val]. *)
Lemma split2bytes_decode val :
  0 <= val < 2 ^ 32 ->
  exists b0 b1 b2 b3,
    to_uint8 <$> split2bytes val = [b0; b1; b2; b3]
    /\ b0 + 2 ^ 8 * b1 + 2 ^ 16 * b2 + 2 ^ 24 * b3 = val.
Proof.
  intros Hval. unfold split2bytes, and, shr.
  cbn [fmap list_fmap to_uint8 to_int32].
  change (wrap32 255) with 255.
  pose proof (wrap32_range val) as Hr.
  set (t0 := wrap32 val) in *.
  assert (Ht0 : t0 = val \/ t0 = val - 2 ^ 32).
  { subst t0. unfold wrap32. Z.to_euclidean_division_equations. lia. }
  rewrite !Z.shiftr_div_pow2 by lia.
  set (t1 := t0 / 2 ^ 8).
  assert (Hr1 : - 2 ^ 31 <= t1 < 2 ^ 31)
    by (subst t1; Z.to_euclidean_division_equations; lia).
  rewrite (wrap32_small t1) by exact Hr1.
  set (t2 := t1 / 2 ^ 8).
  assert (Hr2 : - 2 ^ 31 <= t2 < 2 ^ 31)
    by (subst t2; Z.to_euclidean_division_equations; lia).
  rewrite (wrap32_small t2) by exact Hr2.
  set (t3 := t2 / 2 ^ 8).
  assert (Hr3 : - 2 ^ 31 <= t3 < 2 ^ 31)
    by (subst t3; Z.to_euclidean_division_equations; lia).
  rewrite (wrap32_small t3) by exact Hr3.
  rewrite !land_255.
  eexists _, _, _, _. split; [ reflexivity | ].
  rewrite !Z.mod_mod by lia.
  subst t3 t2 t1. clearbody t0.
  Z.to_euclidean_division_equations. lia.
Qed.

Lemma getPaletteBytes_paletteItems encoding :
  getPaletteBytes encoding = PALETTE_BYTE_SIZE * paletteItems encoding.
Proof.
  unfold getPaletteBytes, paletteItems, PALETTE_BYTE_SIZE.
  repeat case_match; lia.
Qed.

Lemma paletteItems_range encoding : 0 <= paletteItems encoding <= 256.
Proof. unfold paletteItems. repeat case_match; lia. Qed.

Lemma fileByteSize_eq width height encoding :
  fileByteSize width height encoding
  = FILE_HEADER_SIZE + IMG_HEADER_SIZE + getPaletteBytes encoding
    + paddedRowSize (getPixelBytes width height encoding) * height.
Proof. unfold fileByteSize. rewrite pixelSize_padded. reflexivity. Qed.

Lemma fileByteSize_lower width height encoding :
  0 < width -> 0 < height ->
  FILE_HEADER_SIZE + IMG_HEADER_SIZE + getPaletteBytes encoding
  <= fileByteSize width height encoding.
Proof.
  intros Hw Hh. rewrite fileByteSize_eq.
  pose proof (paddedRowSize_nonneg width height encoding ltac:(lia)).
  nia.
Qed.

Lemma fileByteSize_header width height encoding :
  0 < width -> 0 < height -> 54 <= fileByteSize width height encoding.
Proof.
  intros Hw Hh. pose proof (fileByteSize_lower width height encoding Hw Hh).
  rewrite getPaletteBytes_paletteItems in *.
  pose proof (paletteItems_range encoding).
  unfold FILE_HEADER_SIZE, IMG_HEADER_SIZE, PALETTE_BYTE_SIZE in *. lia.
Qed.

Lemma length_headerBytes width height encoding :
  length (headerBytes width height encoding)
  = Z.to_nat (fileByteSize width height encoding).
Proof.
  unfold headerBytes. rewrite length_u8_set_seq. apply length_replicate.
Qed.

Lemma headerBytes_field width height encoding (j : nat) v :
  header_fields (fileByteSize width height encoding)
    (FILE_HEADER_SIZE + IMG_HEADER_SIZE + getPaletteBytes encoding)
    width height encoding !! j = Some v ->
  Z.of_nat j < fileByteSize width height encoding ->
  u8_get (headerBytes width height encoding) (Z.of_nat j)
  = Some (to_uint8 v).
Proof.
  intros Hj Hlen. unfold headerBytes.
  apply (u8_get_set_seq_in _ _ 0 j v); [ lia | exact Hj | ].
  rewrite length_replicate. lia.
Qed.

Lemma headerBytes_zero width height encoding p :
  FILE_HEADER_SIZE + IMG_HEADER_SIZE <= p
  < fileByteSize width height encoding ->
  u8_get (headerBytes width height encoding) p = Some 0.
Proof.
  intros Hp. unfold headerBytes, FILE_HEADER_SIZE, IMG_HEADER_SIZE in *.
  rewrite u8_get_set_seq_ge by (cbn [length header_fields]; lia).
  apply u8_get_replicate. lia.
Qed.

(** ** Runs of createHeader and saveAsBMP *)

Lemma createHeader_run width height encoding s :
  0 <= fileByteSize width height encoding ->
  createHeader width height encoding s
  = (Ok (rowSizeBase (getPixelBytes width height encoding),
         deltaBase (getPixelBytes width height encoding)),
     {| heap := Some (headerBytes width height encoding);
        disk := disk s; disk_fails := disk_fails s |}).
Proof.
  intros Hsize. unfold createHeader, bind, new_Uint8Array, on_bytes, ret.
  fold (fileByteSize width height encoding).
  destruct (Z.ltb_spec (fileByteSize width height encoding) 0); [ lia | ].
  reflexivity.
Qed.

Lemma createHeader_range_error width height encoding s :
  fileByteSize width height encoding < 0 ->
  createHeader width height encoding s
  = (Throw (RangeError_invalid_length (fileByteSize width height encoding)), s).
Proof.
  intros Hsize. unfold createHeader, bind, new_Uint8Array.
  fold (fileByteSize width height encoding).
  destruct (Z.ltb_spec (fileByteSize width height encoding) 0); [ | lia ].
  reflexivity.
Qed.

Lemma palette_stage_run width height encoding (palette : list rgb) s :
  (if 0 <? Z.of_nat (length palette) * PALETTE_BYTE_SIZE
   then on_bytes (fun bytes => fillPalette bytes palette)
   else ret tt)
    {| heap := Some (headerBytes width height encoding);
       disk := disk s; disk_fails := disk_fails s |}
  = (Ok tt, {| heap := Some (paletteBytes width height encoding palette);
               disk := disk s; disk_fails := disk_fails s |}).
Proof.
  unfold paletteBytes.
  destruct (Z.ltb_spec 0 (Z.of_nat (length palette) * PALETTE_BYTE_SIZE))
    as [Hlt | Hge]; [ reflexivity | ].
  destruct palette as [ | c palette ]; [ reflexivity | ].
  unfold PALETTE_BYTE_SIZE in Hge. cbn [length] in Hge. lia.
Qed.

Lemma saveAsBMP_indexed clArray width height encoding name palette s :
  indexed_depth encoding ->
  0 <= fileByteSize width height encoding ->
  saveAsBMP clArray width height encoding name palette s
  = (Ok (if disk_fails s then 1 else 0),
     {| heap := Some (filledBytes clArray width height encoding palette);
        disk := if disk_fails s then disk s
                else disk s ++
                  [(name, filledBytes clArray width height encoding palette)];
        disk_fails := disk_fails s |}).
Proof.
  intros Hd Hsize. unfold saveAsBMP.
  unfold bind at 1. rewrite createHeader_run by assumption.
  unfold bind at 1. rewrite palette_stage_run.
  unfold bind at 1.
  destruct Hd as [-> | [-> | ->]];
    cbn [encodePixels Z.eqb Pos.eqb on_bytes];
    unfold bind, get_bytes, try_catch, writeFile, ret; cbn [heap disk disk_fails];
    destruct (disk_fails s); reflexivity.
Qed.

Lemma saveAsBMP_direct clArray width height encoding name palette s :
  encoding <> 1 -> encoding <> 4 -> encoding <> 8 ->
  0 <= fileByteSize width height encoding ->
  saveAsBMP clArray width height encoding name palette s
  = (Throw (TypeError_assignment_to_constant "FILE_HEADER_SIZE"),
     {| heap := Some (paletteBytes width height encoding palette);
        disk := disk s; disk_fails := disk_fails s |}).
Proof.
  intros H1 H4 H8 Hsize. unfold saveAsBMP.
  unfold bind at 1. rewrite createHeader_run by assumption.
  unfold bind at 1. rewrite palette_stage_run.
  unfold bind at 1. unfold encodePixels.
  destruct (Z.eqb_spec encoding 1); [ contradiction | ].
  destruct (Z.eqb_spec encoding 4); [ contradiction | ].
  destruct (Z.eqb_spec encoding 8); [ contradiction | ].
  destruct (Z.eqb_spec encoding 16); reflexivity.
Qed.

Lemma length_paletteBytes width height encoding palette :
  length (paletteBytes width height encoding palette)
  = Z.to_nat (fileByteSize width height encoding).
Proof.
  unfold paletteBytes. rewrite length_fillPalette. apply length_headerBytes.
Qed.

Lemma length_filledBytes clArray width height encoding palette :
  length (filledBytes clArray width height encoding palette)
  = Z.to_nat (fileByteSize width height encoding).
Proof.
  unfold filledBytes.
  repeat case_match;
    rewrite ?fillColorData_1_scan, ?fillColorData_4_scan,
      ?fillColorData_8_scan, scan_length;
    apply length_paletteBytes.
Qed.

(** The pixel stage leaves the header and the palette entries alone. *)
Lemma filledBytes_below clArray width height encoding palette p :
  p < FILE_HEADER_SIZE + IMG_HEADER_SIZE
      + Z.of_nat (length palette) * PALETTE_BYTE_SIZE ->
  u8_get (filledBytes clArray width height encoding palette) p
  = u8_get (paletteBytes width height encoding palette) p.
Proof.
  intros Hp. unfold filledBytes.
  pose proof (deltaBase_range width height encoding) as [Hd _].
  repeat case_match;
    rewrite ?fillColorData_1_scan, ?fillColorData_4_scan,
      ?fillColorData_8_scan;
    apply scan_frame; assumption.
Qed.

Lemma paletteBytes_header width height encoding palette p :
  p < FILE_HEADER_SIZE + IMG_HEADER_SIZE ->
  u8_get (paletteBytes width height encoding palette) p
  = u8_get (headerBytes width height encoding) p.
Proof. intros Hp. apply fillPalette_loop_lt. assumption. Qed.

Lemma paletteBytes_zero width height encoding palette p :
  FILE_HEADER_SIZE + IMG_HEADER_SIZE
  + Z.of_nat (length palette) * PALETTE_BYTE_SIZE <= p
  < fileByteSize width height encoding ->
  u8_get (paletteBytes width height encoding palette) p = Some 0.
Proof.
  intros Hp. unfold paletteBytes, fillPalette.
  unfold PALETTE_BYTE_SIZE in Hp.
  rewrite fillPalette_loop_ge by lia.
  apply headerBytes_zero. lia.
Qed.

Lemma split2bytes_le val :
  0 <= val < 2 ^ 32 ->
  to_uint8 (item (split2bytes val) 0)
  + 2 ^ 8 * to_uint8 (item (split2bytes val) 1)
  + 2 ^ 16 * to_uint8 (item (split2bytes val) 2)
  + 2 ^ 24 * to_uint8 (item (split2bytes val) 3) = val.
Proof.
  intros Hval. destruct (split2bytes_decode val Hval) as (b0 & b1 & b2 & b3 & E & Hsum).
  unfold split2bytes in *. cbn [fmap list_fmap] in E.
  injection E as E0 E1 E2 E3. subst b0 b1 b2 b3. exact Hsum.
Qed.

(** Where a run of saveAsBMP leaves the byte array. *)
Lemma saveAsBMP_bytes clArray width height encoding name palette s :
  0 <= fileByteSize width height encoding ->
  let out := saveAsBMP clArray width height encoding name palette s in
  heap (snd out) = Some (bytes_of out)
  /\ (indexed_depth encoding ->
      bytes_of out = filledBytes clArray width height encoding palette)
  /\ (~ indexed_depth encoding ->
      bytes_of out = paletteBytes width height encoding palette).
Proof.
  intros Hsize out. subst out. unfold bytes_of, indexed_depth.
  destruct (Z.eq_dec encoding 1) as [E1 | N1];
    [ rewrite saveAsBMP_indexed by (unfold indexed_depth; tauto); cbn; tauto | ].
  destruct (Z.eq_dec encoding 4) as [E4 | N4];
    [ rewrite saveAsBMP_indexed by (unfold indexed_depth; tauto); cbn; tauto | ].
  destruct (Z.eq_dec encoding 8) as [E8 | N8];
    [ rewrite saveAsBMP_indexed by (unfold indexed_depth; tauto); cbn; tauto | ].
  rewrite saveAsBMP_direct by assumption. cbn. tauto.
Qed.

Lemma saveAsBMP_length clArray width height encoding name palette s :
  0 <= fileByteSize width height encoding ->
  length (bytes_of (saveAsBMP clArray width height encoding name palette s))
  = Z.to_nat (fileByteSize width height encoding).
Proof.
  intros Hsize.
  destruct (saveAsBMP_bytes clArray width height encoding name palette s Hsize)
    as (_ & Hi & Hn).
  destruct (decide (encoding = 1 \/ encoding = 4 \/ encoding = 8)) as [Hd | Hd].
  - rewrite (Hi Hd). apply length_filledBytes.
  - rewrite (Hn Hd). apply length_paletteBytes.
Qed.

Lemma saveAsBMP_header clArray width height encoding name palette s p :
  0 <= fileByteSize width height encoding ->
  p < FILE_HEADER_SIZE + IMG_HEADER_SIZE ->
  u8_get (bytes_of (saveAsBMP clArray width height encoding name palette s)) p
  = u8_get (headerBytes width height encoding) p.
Proof.
  intros Hsize Hp.
  destruct (saveAsBMP_bytes clArray width height encoding name palette s Hsize)
    as (_ & Hi & Hn).
  destruct (decide (encoding = 1 \/ encoding = 4 \/ encoding = 8)) as [Hd | Hd].
  - rewrite (Hi Hd), filledBytes_below by (unfold PALETTE_BYTE_SIZE; lia).
    apply paletteBytes_header. assumption.
  - rewrite (Hn Hd). apply paletteBytes_header. assumption.
Qed.

(** ** The length of the file (C4) *)

(** C4: for a positive width and height, a supported depth and a palette of
    the length the depth requires, the byte array saveAsBMP builds has
    54 + 4 * palette.length + (padded row size) * height bytes; at depths 1, 4
    and 8 this is the array handed to writeFile (the promise resolves with 0,
    or with 1 when writeFile rejects); at depths 16 and 24 it is the array the
    run stops with. *)
Theorem C4_buffer_length clArray width height encoding name palette s :
  0 < width -> 0 < height -> supported_depth encoding ->
  Z.of_nat (length palette) = paletteItems encoding ->
  let g := getPixelBytes width height encoding in
  let out := saveAsBMP clArray width height encoding name palette s in
  heap (snd out) = Some (bytes_of out)
  /\ Z.of_nat (length (bytes_of out))
     = FILE_HEADER_SIZE + IMG_HEADER_SIZE
       + PALETTE_BYTE_SIZE * Z.of_nat (length palette)
       + paddedRowSize g * height
  /\ (indexed_depth encoding ->
      fst out = Ok (if disk_fails s then 1 else 0)
      /\ disk (snd out)
         = if disk_fails s then disk s
           else disk s ++ [(name, bytes_of out)]).
Proof.
  intros Hw Hh Hd Hpal g out.
  pose proof (fileByteSize_lower width height encoding Hw Hh) as Hlow.
  assert (Hsize : 0 <= fileByteSize width height encoding).
  { rewrite getPaletteBytes_paletteItems in Hlow.
    pose proof (paletteItems_range encoding).
    unfold FILE_HEADER_SIZE, IMG_HEADER_SIZE, PALETTE_BYTE_SIZE in Hlow. lia. }
  destruct (saveAsBMP_bytes clArray width height encoding name palette s Hsize)
    as (Hheap & Hi & _).
  split_and!.
  - exact Hheap.
  - subst out. rewrite saveAsBMP_length by assumption.
    rewrite Z2Nat.id by assumption.
    rewrite fileByteSize_eq, getPaletteBytes_paletteItems, Hpal. reflexivity.
  - intros Hidx. subst out.
    rewrite saveAsBMP_indexed by assumption. unfold bytes_of.
    cbn [fst snd heap disk from_option id]. destruct (disk_fails s); split; reflexivity.
Qed.

Lemma C4_witness :
  let g := getPixelBytes 3 2 8 in
  let palette := replicate 256 {| R := 1; G := 2; B := 3 |} in
  let out := saveAsBMP [1; 2; 3; 4; 5; 6] 3 2 8 "a.bmp" palette
               (initial_store false) in
  heap (snd out) = Some (bytes_of out)
  /\ Z.of_nat (length (bytes_of out))
     = FILE_HEADER_SIZE + IMG_HEADER_SIZE
       + PALETTE_BYTE_SIZE * Z.of_nat (length palette)
       + paddedRowSize g * 2
  /\ (indexed_depth 8 ->
      fst out = Ok (if disk_fails (initial_store false) then 1 else 0)
      /\ disk (snd out)
         = if disk_fails (initial_store false) then disk (initial_store false)
           else disk (initial_store false) ++ [("a.bmp"%string, bytes_of out)]).
Proof.
  apply (C4_buffer_length [1; 2; 3; 4; 5; 6] 3 2 8 "a.bmp"
           (replicate 256 {| R := 1; G := 2; B := 3 |}) (initial_store false)).
  - lia.
  - lia.
  - unfold supported_depth. lia.
  - reflexivity.
Defined.

(** ** The header fields (C5) *)

Lemma saveAsBMP_header_byte clArray width height encoding name palette s p v :
  FILE_HEADER_SIZE + IMG_HEADER_SIZE <= fileByteSize width height encoding ->
  header_fields (fileByteSize width height encoding)
    (FILE_HEADER_SIZE + IMG_HEADER_SIZE + getPaletteBytes encoding)
    width height encoding !! Z.to_nat p = Some v ->
  0 <= p < FILE_HEADER_SIZE + IMG_HEADER_SIZE ->
  byte_at (bytes_of (saveAsBMP clArray width height encoding name palette s)) p
  = to_uint8 v.
Proof.
  intros Hsize Hv Hp. unfold byte_at.
  unfold FILE_HEADER_SIZE, IMG_HEADER_SIZE in Hsize, Hp.
  rewrite saveAsBMP_header
    by (unfold FILE_HEADER_SIZE, IMG_HEADER_SIZE; lia).
  rewrite <- (Z2Nat.id p) by lia.
  rewrite (headerBytes_field _ _ _ _ v) by (rewrite ?Z2Nat.id; [exact Hv || lia | lia ..]).
  reflexivity.
Qed.

Ltac header_bytes Hsize :=
  unfold le32, le16;
  repeat match goal with
  | |- context [byte_at ?b (Zpos ?a + Zpos ?c)] =>
      let v := eval compute in (Zpos a + Zpos c) in
      change (Zpos a + Zpos c) with v
  end;
  repeat (erewrite saveAsBMP_header_byte;
          [ | exact Hsize | reflexivity
            | unfold FILE_HEADER_SIZE, IMG_HEADER_SIZE; lia ]).

(** C5: for a positive width and height and a supported depth, with the
    width, the height and the file size within the 32 bits of their fields,
    the byte array saveAsBMP builds starts with 0x42 0x4D and its
    little-endian fields read: the file size (the length of the array) at 2,
    the offset of the pixel data (54 plus the palette bytes of the depth) at
    10, 40 at 14, the width at 18, the height at 22, 1 at 26, the depth at 28,
    0 at 30 and 7874 at 38 and at 42. *)
Theorem C5_header_fields_decode clArray width height encoding name palette s :
  0 < width < 2 ^ 32 -> 0 < height < 2 ^ 32 -> supported_depth encoding ->
  fileByteSize width height encoding < 2 ^ 32 ->
  let bytes :=
    bytes_of (saveAsBMP clArray width height encoding name palette s) in
  byte_at bytes 0 = 66 /\ byte_at bytes 1 = 77
  /\ le32 bytes 2 = Z.of_nat (length bytes)
  /\ le32 bytes 10
     = FILE_HEADER_SIZE + IMG_HEADER_SIZE + getPaletteBytes encoding
  /\ le32 bytes 14 = 40
  /\ le32 bytes 18 = width
  /\ le32 bytes 22 = height
  /\ le16 bytes 26 = 1
  /\ le16 bytes 28 = encoding
  /\ le32 bytes 30 = 0
  /\ le32 bytes 38 = 7874
  /\ le32 bytes 42 = 7874.
Proof.
  intros Hw Hh Hd Hmax bytes.
  pose proof (fileByteSize_lower width height encoding ltac:(lia) ltac:(lia))
    as Hlow.
  assert (Hpal : 0 <= getPaletteBytes encoding <= 1024).
  { rewrite getPaletteBytes_paletteItems.
    pose proof (paletteItems_range encoding). unfold PALETTE_BYTE_SIZE. lia. }
  assert (Hsize : FILE_HEADER_SIZE + IMG_HEADER_SIZE
                  <= fileByteSize width height encoding) by lia.
  assert (Hlen : Z.of_nat (length bytes) = fileByteSize width height encoding).
  { subst bytes. rewrite saveAsBMP_length; unfold FILE_HEADER_SIZE,
      IMG_HEADER_SIZE in *; lia. }
  rewrite Hlen. subst bytes.
  split_and!; header_bytes Hsize.
  - reflexivity.
  - reflexivity.
  - apply split2bytes_le. unfold FILE_HEADER_SIZE, IMG_HEADER_SIZE in *. lia.
  - apply split2bytes_le. unfold FILE_HEADER_SIZE, IMG_HEADER_SIZE in *. lia.
  - reflexivity.
  - apply split2bytes_le. lia.
  - apply split2bytes_le. lia.
  - reflexivity.
  - depth_cases Hd; reflexivity.
  - reflexivity.
  - reflexivity.
  - reflexivity.
Qed.

Lemma C5_witness :
  let bytes :=
    bytes_of (saveAsBMP [1; 2; 3; 4; 5; 6] 3 2 24 "a.bmp" []
                (initial_store false)) in
  byte_at bytes 0 = 66 /\ byte_at bytes 1 = 77
  /\ le32 bytes 2 = Z.of_nat (length bytes)
  /\ le32 bytes 10 = FILE_HEADER_SIZE + IMG_HEADER_SIZE + getPaletteBytes 24
  /\ le32 bytes 14 = 40
  /\ le32 bytes 18 = 3
  /\ le32 bytes 22 = 2
  /\ le16 bytes 26 = 1
  /\ le16 bytes 28 = 24
  /\ le32 bytes 30 = 0
  /\ le32 bytes 38 = 7874
  /\ le32 bytes 42 = 7874.
Proof.
  apply (C5_header_fields_decode [1; 2; 3; 4; 5; 6] 3 2 24 "a.bmp" []
           (initial_store false)).
  - lia.
  - lia.
  - unfold supported_depth. lia.
  - vm_compute. reflexivity.
Defined.

(** ** The palette (C8) *)

Lemma paletteBytes_entry width height encoding palette (i j : nat) c v :
  palette !! i = Some c ->
  [Num (R c); Num (G c); Num (B c); Num 0] !! j = Some v ->
  FILE_HEADER_SIZE + IMG_HEADER_SIZE + 4 * Z.of_nat i + Z.of_nat j
  < fileByteSize width height encoding ->
  u8_get (paletteBytes width height encoding palette)
    (FILE_HEADER_SIZE + IMG_HEADER_SIZE + 4 * Z.of_nat i + Z.of_nat j)
  = Some (to_uint8 v).
Proof.
  intros Hi Hj Hlen. unfold paletteBytes, fillPalette.
  apply (fillPalette_loop_entry _ _ _ _ c);
    [ unfold FILE_HEADER_SIZE, IMG_HEADER_SIZE; lia | assumption | assumption | ].
  rewrite length_headerBytes. lia.
Qed.

Lemma filledBytes_entry clArray width height encoding palette (i j : nat) c v :
  palette !! i = Some c ->
  [Num (R c); Num (G c); Num (B c); Num 0] !! j = Some v ->
  FILE_HEADER_SIZE + IMG_HEADER_SIZE + 4 * Z.of_nat i + Z.of_nat j
  < fileByteSize width height encoding ->
  u8_get (filledBytes clArray width height encoding palette)
    (FILE_HEADER_SIZE + IMG_HEADER_SIZE + 4 * Z.of_nat i + Z.of_nat j)
  = Some (to_uint8 v).
Proof.
  intros Hi Hj Hlen.
  pose proof (lookup_lt_Some _ _ _ Hi) as Hi'.
  pose proof (lookup_lt_Some _ _ _ Hj) as Hj'. cbn [length] in Hj'.
  rewrite filledBytes_below by (unfold PALETTE_BYTE_SIZE; lia).
  apply (paletteBytes_entry _ _ _ _ _ _ c); assumption.
Qed.

(** C8: at depths 1, 4 and 8, with a palette of the required length whose
    channels are bytes, entry [i] of the palette occupies the offsets
    54 + 4 i to 54 + 4 i + 3 of the file as R, G, B, 0. *)
Theorem C8_palette_entries clArray width height encoding name palette s :
  0 < width -> 0 < height -> indexed_depth encoding ->
  Z.of_nat (length palette) = paletteItems encoding ->
  channels_in_range palette = true ->
  let out := saveAsBMP clArray width height encoding name palette s in
  (disk_fails s = false -> disk (snd out) = disk s ++ [(name, bytes_of out)])
  /\ forall (i : nat) c, palette !! i = Some c ->
       u8_get (bytes_of out) (54 + 4 * Z.of_nat i) = Some (R c)
       /\ u8_get (bytes_of out) (54 + 4 * Z.of_nat i + 1) = Some (G c)
       /\ u8_get (bytes_of out) (54 + 4 * Z.of_nat i + 2) = Some (B c)
       /\ u8_get (bytes_of out) (54 + 4 * Z.of_nat i + 3) = Some 0.
Proof.
  intros Hw Hh Hd Hpal Hch out.
  pose proof (fileByteSize_lower width height encoding Hw Hh) as Hlow.
  rewrite getPaletteBytes_paletteItems, <- Hpal in Hlow.
  unfold FILE_HEADER_SIZE, IMG_HEADER_SIZE, PALETTE_BYTE_SIZE in Hlow.
  assert (Hsize : 0 <= fileByteSize width height encoding) by lia.
  destruct (saveAsBMP_bytes clArray width height encoding name palette s Hsize)
    as (_ & Hi & _).
  specialize (Hi Hd). fold out in Hi. split.
  - intros Hok. subst out. rewrite saveAsBMP_indexed by assumption.
    unfold bytes_of. cbn [snd heap disk from_option id]. rewrite Hok. reflexivity.
  - intros i c Hc. rewrite Hi.
    pose proof (lookup_lt_Some _ _ _ Hc) as Hlt.
    assert (Hrange : 0 <= R c < 256 /\ 0 <= G c < 256 /\ 0 <= B c < 256).
    { unfold channels_in_range in Hch.
      assert (Hin : In c palette)
        by (apply list_elem_of_In; eapply list_elem_of_lookup_2; exact Hc).
      pose proof (proj1 (forallb_forall _ _) Hch c Hin) as Hb.
      cbv beta in Hb. unfold is_byte in Hb. lia. }
    destruct Hrange as (HR & HG & HB).
    pose proof (filledBytes_entry clArray width height encoding palette i 0 c
                  (Num (R c)) Hc eq_refl) as E0.
    pose proof (filledBytes_entry clArray width height encoding palette i 1 c
                  (Num (G c)) Hc eq_refl) as E1.
    pose proof (filledBytes_entry clArray width height encoding palette i 2 c
                  (Num (B c)) Hc eq_refl) as E2.
    pose proof (filledBytes_entry clArray width height encoding palette i 3 c
                  (Num 0) Hc eq_refl) as E3.
    unfold FILE_HEADER_SIZE, IMG_HEADER_SIZE in E0, E1, E2, E3.
    cbn [to_uint8] in E0, E1, E2, E3.
    rewrite Z.mod_small in E0, E1, E2 by lia.
    change (0 mod 256) with 0 in E3.
    change (14 + 40) with 54 in E0, E1, E2, E3.
    change (Z.of_nat 0) with 0 in E0. change (Z.of_nat 1) with 1 in E1.
    change (Z.of_nat 2) with 2 in E2. change (Z.of_nat 3) with 3 in E3.
    rewrite Z.add_0_r in E0.
    split_and!; [ apply E0 | apply E1 | apply E2 | apply E3 ]; lia.
Qed.

Lemma C8_witness :
  let palette := [ {| R := 10; G := 20; B := 30 |};
                   {| R := 40; G := 50; B := 60 |} ] in
  let out := saveAsBMP [1; 0; 1; 1; 0; 0; 1; 0] 8 1 1 "a.bmp" palette
               (initial_store false) in
  (disk_fails (initial_store false) = false ->
   disk (snd out) = disk (initial_store false) ++ [("a.bmp"%string, bytes_of out)])
  /\ forall (i : nat) c, palette !! i = Some c ->
       u8_get (bytes_of out) (54 + 4 * Z.of_nat i) = Some (R c)
       /\ u8_get (bytes_of out) (54 + 4 * Z.of_nat i + 1) = Some (G c)
       /\ u8_get (bytes_of out) (54 + 4 * Z.of_nat i + 2) = Some (B c)
       /\ u8_get (bytes_of out) (54 + 4 * Z.of_nat i + 3) = Some 0.
Proof.
  apply (C8_palette_entries [1; 0; 1; 1; 0; 0; 1; 0] 8 1 1 "a.bmp"
           [ {| R := 10; G := 20; B := 30 |}; {| R := 40; G := 50; B := 60 |} ]
           (initial_store false)).
  - lia.
  - lia.
  - unfold indexed_depth. lia.
  - reflexivity.
  - reflexivity.
Defined.

(** ** Depths 16 and 24 (C10) *)

Lemma fillColorData_16_throws clArray s :
  fillColorData_16 clArray s
  = (Throw (TypeError_assignment_to_constant "FILE_HEADER_SIZE"), s).
Proof. reflexivity. Qed.

Lemma fillColorData_24_throws clArray s :
  fillColorData_24 clArray s
  = (Throw (TypeError_assignment_to_constant "FILE_HEADER_SIZE"), s).
Proof. reflexivity. Qed.

Lemma fillColorData_24_body_throws clArray i k s :
  fillColorData_24_body clArray i k s
  = (Throw (ReferenceError_not_defined "bytes"), s).
Proof. reflexivity. Qed.

(** C10: at depth 16 and at depth 24 (positive width and height), the encoder
    saveAsBMP selects throws on its first statement, the assignment to the
    constant FILE_HEADER_SIZE, with the store as it received it: the byte
    array is the one the header and palette stages left, with every byte from
    the start of the pixel data on still 0, and writeFile is not reached, so
    the promise rejects. The loop of fillColorData_24, were it reached, would
    throw too: [bytes] resolves to nothing in the scope of that function. *)
Theorem C10_direct_depths_throw clArray width height encoding name palette s :
  encoding = 16 \/ encoding = 24 -> 0 < width -> 0 < height ->
  let out := saveAsBMP clArray width height encoding name palette s in
  fst out = Throw (TypeError_assignment_to_constant "FILE_HEADER_SIZE")
  /\ disk (snd out) = disk s
  /\ heap (snd out) = Some (paletteBytes width height encoding palette)
  /\ (forall p,
        FILE_HEADER_SIZE + IMG_HEADER_SIZE
        + Z.of_nat (length palette) * PALETTE_BYTE_SIZE <= p
        < fileByteSize width height encoding ->
        u8_get (bytes_of out) p = Some 0)
  /\ (forall bytes s', fillColorData_16 bytes s'
        = (Throw (TypeError_assignment_to_constant "FILE_HEADER_SIZE"), s'))
  /\ (forall bytes s', fillColorData_24 bytes s'
        = (Throw (TypeError_assignment_to_constant "FILE_HEADER_SIZE"), s'))
  /\ resolve scope_24 "bytes" = None
  /\ (forall bytes i k s', fillColorData_24_body bytes i k s'
        = (Throw (ReferenceError_not_defined "bytes"), s')).
Proof.
  intros Hd Hw Hh out.
  pose proof (fileByteSize_header width height encoding Hw Hh) as Hlow.
  assert (Hsize : 0 <= fileByteSize width height encoding) by lia.
  assert (Hrun : out
    = (Throw (TypeError_assignment_to_constant "FILE_HEADER_SIZE"),
       {| heap := Some (paletteBytes width height encoding palette);
          disk := disk s; disk_fails := disk_fails s |})).
  { subst out. apply saveAsBMP_direct; destruct Hd; subst; lia. }
  rewrite Hrun. unfold bytes_of. cbn [fst snd heap disk from_option id].
  split_and!; try reflexivity.
  intros p Hp. apply paletteBytes_zero. assumption.
Qed.

Lemma C10_witness :
  let out := saveAsBMP [1; 2; 3; 4; 5; 6] 3 2 24 "a.bmp" []
               (initial_store false) in
  fst out = Throw (TypeError_assignment_to_constant "FILE_HEADER_SIZE")
  /\ disk (snd out) = disk (initial_store false)
  /\ heap (snd out) = Some (paletteBytes 3 2 24 [])
  /\ (forall p,
        FILE_HEADER_SIZE + IMG_HEADER_SIZE
        + Z.of_nat (length (@nil rgb)) * PALETTE_BYTE_SIZE <= p
        < fileByteSize 3 2 24 ->
        u8_get (bytes_of out) p = Some 0)
  /\ (forall bytes s', fillColorData_16 bytes s'
        = (Throw (TypeError_assignment_to_constant "FILE_HEADER_SIZE"), s'))
  /\ (forall bytes s', fillColorData_24 bytes s'
        = (Throw (TypeError_assignment_to_constant "FILE_HEADER_SIZE"), s'))
  /\ resolve scope_24 "bytes" = None
  /\ (forall bytes i k s', fillColorData_24_body bytes i k s'
        = (Throw (ReferenceError_not_defined "bytes"), s')).
Proof.
  apply (C10_direct_depths_throw [1; 2; 3; 4; 5; 6] 3 2 24 "a.bmp" []
           (initial_store false)).
  - right. reflexivity.
  - lia.
  - lia.
Defined.

(** ** Depths outside the supported set (C6) *)

(** C6 as stated fails at depth 7: saveAsBMP allocates the byte array (62
    bytes for a 1 x 2 image, rows of 3 bytes padded to 4 as at depth 24) and
    writes the header before anything is raised, and what is raised is the
    TypeError of the 24-bit encoder. *)
Lemma C6_depth_7_allocates_and_encodes_as_24 :
  let out := saveAsBMP [1; 2] 1 2 7 "a.bmp" [] (initial_store false) in
  ~ supported_depth 7
  /\ heap (initial_store false) = None
  /\ heap (snd out) = Some (headerBytes 1 2 7)
  /\ length (headerBytes 1 2 7) = 62%nat
  /\ getPixelBytes 1 2 7 = getPixelBytes 1 2 24
  /\ fst out = Throw (TypeError_assignment_to_constant "FILE_HEADER_SIZE").
Proof.
  split_and!; try reflexivity.
  unfold supported_depth. lia.
Qed.

(** C6 as amended: a depth outside 1, 4, 8, 16, 24 is not rejected. createHeader
    allocates the byte array and records the depth in the header; the rows are
    sized as at depth 24 (with 4 bytes per pixel at depth 32), there is no
    palette, and the switch of saveAsBMP selects the encoder of depth 24. *)
Theorem C6_unsupported_depth_is_treated_as_24 width height encoding s
    clArray paletteSize rowSizeBase' deltaBase' :
  ~ supported_depth encoding -> 0 < width -> 0 < height ->
  let g := getPixelBytes width height encoding in
  (encoding <> 32 -> g = getPixelBytes width height 24)
  /\ (encoding = 32 -> rowSizeBase g = 4 * width)
  /\ getPaletteBytes encoding = 0
  /\ createHeader width height encoding s
     = (Ok (rowSizeBase g, deltaBase g),
        {| heap := Some (headerBytes width height encoding);
           disk := disk s; disk_fails := disk_fails s |})
  /\ Z.of_nat (length (headerBytes width height encoding))
     = FILE_HEADER_SIZE + IMG_HEADER_SIZE + paddedRowSize g * height
  /\ byte_at (headerBytes width height encoding) 28 = encoding mod 256
  /\ encodePixels encoding clArray paletteSize rowSizeBase' deltaBase'
     = encodePixels 24 clArray paletteSize rowSizeBase' deltaBase'.
Proof.
  intros Hd Hw Hh g. unfold supported_depth in Hd.
  assert (H1 : encoding <> 1) by tauto. assert (H4 : encoding <> 4) by tauto.
  assert (H8 : encoding <> 8) by tauto. assert (H16 : encoding <> 16) by tauto.
  assert (H24 : encoding <> 24) by tauto.
  pose proof (fileByteSize_lower width height encoding Hw Hh) as Hlow.
  assert (Hpal : getPaletteBytes encoding = 0).
  { unfold getPaletteBytes.
    destruct (Z.eqb_spec encoding 1); [ contradiction | ].
    destruct (Z.eqb_spec encoding 4); [ contradiction | ].
    destruct (Z.eqb_spec encoding 8); [ contradiction | reflexivity ]. }
  rewrite Hpal in Hlow. unfold FILE_HEADER_SIZE, IMG_HEADER_SIZE in Hlow.
  split_and!.
  - intros H32. subst g. unfold getPixelBytes.
    destruct (Z.eqb_spec encoding 1); [ contradiction | ].
    destruct (Z.eqb_spec encoding 4); [ contradiction | ].
    destruct (Z.eqb_spec encoding 8); [ contradiction | ].
    destruct (Z.eqb_spec encoding 16); [ contradiction | ].
    destruct (Z.eqb_spec encoding 24); [ contradiction | ].
    destruct (Z.eqb_spec encoding 32); [ contradiction | reflexivity ].
  - intros ->. reflexivity.
  - exact Hpal.
  - apply createHeader_run. lia.
  - rewrite length_headerBytes, Z2Nat.id by lia.
    rewrite fileByteSize_eq, Hpal. subst g. lia.
  - unfold byte_at. change 28 with (Z.of_nat 28).
    rewrite (headerBytes_field width height encoding 28 (Num encoding))
      by (reflexivity || lia).
    reflexivity.
  - unfold encodePixels.
    destruct (Z.eqb_spec encoding 1); [ contradiction | ].
    destruct (Z.eqb_spec encoding 4); [ contradiction | ].
    destruct (Z.eqb_spec encoding 8); [ contradiction | ].
    destruct (Z.eqb_spec encoding 16); [ contradiction | reflexivity ].
Qed.

Lemma C6_witness :
  let g := getPixelBytes 1 2 7 in
  (7 <> 32 -> g = getPixelBytes 1 2 24)
  /\ (7 = 32 -> rowSizeBase g = 4 * 1)
  /\ getPaletteBytes 7 = 0
  /\ createHeader 1 2 7 (initial_store false)
     = (Ok (rowSizeBase g, deltaBase g),
        {| heap := Some (headerBytes 1 2 7);
           disk := disk (initial_store false);
           disk_fails := disk_fails (initial_store false) |})
  /\ Z.of_nat (length (headerBytes 1 2 7))
     = FILE_HEADER_SIZE + IMG_HEADER_SIZE + paddedRowSize g * 2
  /\ byte_at (headerBytes 1 2 7) 28 = 7 mod 256
  /\ encodePixels 7 [1; 2] 0 3 1 = encodePixels 24 [1; 2] 0 3 1.
Proof.
  apply (C6_unsupported_depth_is_treated_as_24 1 2 7 (initial_store false)
           [1; 2] 0 3 1).
  - unfold supported_depth. lia.
  - lia.
  - lia.
Defined.

(** ** A palette of another length (C7) *)

(** C7 as stated fails at depth 8 with a palette of two entries: nothing is
    raised, the promise resolves with 0 and a file of 54 + 1024 + 4 bytes is
    written, with the one pixel at offset 54 + 4 * 2 = 62. *)
Lemma C7_short_palette_is_accepted :
  let palette := [ {| R := 10; G := 20; B := 30 |};
                   {| R := 40; G := 50; B := 60 |} ] in
  let out := saveAsBMP [5] 1 1 8 "a.bmp" palette (initial_store false) in
  Z.of_nat (length palette) <> paletteItems 8
  /\ fst out = Ok 0
  /\ disk (snd out) = [("a.bmp"%string, bytes_of out)]
  /\ length (bytes_of out) = 1082%nat
  /\ byte_at (bytes_of out) 62 = 5.
Proof.
  split_and!; [ vm_compute; discriminate | vm_compute; reflexivity .. ].
Qed.

(** C7 as amended: the length of the palette is not checked. At depths 1, 4
    and 8 (positive width and height), whatever the palette, nothing is
    raised: the byte array is allocated with the palette size of the depth,
    every palette entry that fits in it is written from offset 54 on as R, G,
    B, 0, and the array is handed to writeFile, the promise resolving with 0,
    or with 1 when writeFile rejects. *)
Theorem C7_palette_length_is_not_checked clArray width height encoding name
    palette s :
  indexed_depth encoding -> 0 < width -> 0 < height ->
  let g := getPixelBytes width height encoding in
  let out := saveAsBMP clArray width height encoding name palette s in
  fst out = Ok (if disk_fails s then 1 else 0)
  /\ heap (snd out) = Some (bytes_of out)
  /\ disk (snd out)
     = (if disk_fails s then disk s else disk s ++ [(name, bytes_of out)])
  /\ Z.of_nat (length (bytes_of out))
     = FILE_HEADER_SIZE + IMG_HEADER_SIZE + getPaletteBytes encoding
       + paddedRowSize g * height
  /\ forall (i j : nat) c v,
       palette !! i = Some c ->
       [Num (R c); Num (G c); Num (B c); Num 0] !! j = Some v ->
       54 + 4 * Z.of_nat i + Z.of_nat j < Z.of_nat (length (bytes_of out)) ->
       u8_get (bytes_of out) (54 + 4 * Z.of_nat i + Z.of_nat j)
       = Some (to_uint8 v).
Proof.
  intros Hd Hw Hh g out.
  pose proof (fileByteSize_header width height encoding Hw Hh) as Hlow.
  assert (Hsize : 0 <= fileByteSize width height encoding) by lia.
  assert (Hrun := saveAsBMP_indexed clArray width height encoding name palette
                    s Hd Hsize).
  fold out in Hrun. rewrite Hrun. unfold bytes_of.
  cbn [fst snd heap disk from_option id].
  rewrite length_filledBytes, Z2Nat.id by assumption.
  split_and!; try reflexivity.
  - subst g. apply fileByteSize_eq.
  - intros i j c v Hc Hv Hlt.
    apply (filledBytes_entry clArray width height encoding palette i j c v Hc Hv).
    unfold FILE_HEADER_SIZE, IMG_HEADER_SIZE. lia.
Qed.

Lemma C7_witness :
  let palette := [ {| R := 10; G := 20; B := 30 |};
                   {| R := 40; G := 50; B := 60 |} ] in
  let g := getPixelBytes 1 1 8 in
  let s := initial_store false in
  let out := saveAsBMP [5] 1 1 8 "a.bmp" palette s in
  fst out = Ok (if disk_fails s then 1 else 0)
  /\ heap (snd out) = Some (bytes_of out)
  /\ disk (snd out)
     = (if disk_fails s then disk s
        else disk s ++ [("a.bmp"%string, bytes_of out)])
  /\ Z.of_nat (length (bytes_of out))
     = FILE_HEADER_SIZE + IMG_HEADER_SIZE + getPaletteBytes 8
       + paddedRowSize g * 1
  /\ forall (i j : nat) c v,
       palette !! i = Some c ->
       [Num (R c); Num (G c); Num (B c); Num 0] !! j = Some v ->
       54 + 4 * Z.of_nat i + Z.of_nat j < Z.of_nat (length (bytes_of out)) ->
       u8_get (bytes_of out) (54 + 4 * Z.of_nat i + Z.of_nat j)
       = Some (to_uint8 v).
Proof.
  apply (C7_palette_length_is_not_checked [5] 1 1 8 "a.bmp"
           [ {| R := 10; G := 20; B := 30 |}; {| R := 40; G := 50; B := 60 |} ]
           (initial_store false)).
  - unfold indexed_depth. lia.
  - lia.
  - lia.
Defined.

(** ** Rows of the 8-bit and of the 1-bit encoder *)

Lemma for_count_1 n : for_count n 1 = Z.to_nat n.
Proof. unfold for_count. f_equal. rewrite Z.div_1_r. lia. Qed.

Lemma for_count_8 m : 0 <= m -> for_count (8 * m) 8 = Z.to_nat m.
Proof.
  intros Hm. unfold for_count. f_equal.
  Z.to_euclidean_division_equations. lia.
Qed.

(** The 8-bit encoder does write the rows bottom-up: byte [col] of file row
    [row] is pixel [col] of image row [height - 1 - row], and every file row
    takes [width + delta] bytes. *)
Lemma fillColorData_8_rows bytes clArray paletteSize width height delta row col :
  0 < width -> 0 < height -> 0 <= delta -> 0 <= paletteSize ->
  Z.of_nat (length clArray) = width * height ->
  0 <= row < height -> 0 <= col < width ->
  54 + paletteSize + row * (width + delta) + col < Z.of_nat (length bytes) ->
  u8_get (fillColorData_8 bytes clArray paletteSize width delta)
    (54 + paletteSize + row * (width + delta) + col)
  = Some (to_uint8 (arr_get clArray ((height - 1 - row) * width + col))).
Proof.
  intros Hw Hh Hdelta Hpal Hlen Hrow Hcol Hp.
  rewrite fillColorData_8_scan, for_count_1.
  set (c := {| c_bytes := bytes;
               c_k := FILE_HEADER_SIZE + IMG_HEADER_SIZE + paletteSize;
               c_i_row := 0;
               c_i0 := Z.of_nat (length clArray) - width |}).
  pose proof (scan_rows (cell_8 clArray) width delta width Hdelta Hw
                (Z.to_nat (Z.of_nat (length clArray))) c row col) as H.
  subst c. cbn [c_bytes c_k c_i_row c_i0] in H.
  unfold FILE_HEADER_SIZE, IMG_HEADER_SIZE in *.
  change (14 + 40) with 54 in *.
  rewrite H by (try reflexivity; nia).
  unfold cell_8. do 3 f_equal. rewrite Hlen. lia.
Qed.

Lemma arr_get_binary clArray i :
  binary_pixels clArray = true -> 0 <= i < Z.of_nat (length clArray) ->
  arr_get clArray i = Num 0 \/ arr_get clArray i = Num 1.
Proof.
  intros Hbin Hi. unfold arr_get.
  destruct (Z.leb_spec 0 i); [ | lia ].
  destruct (lookup_lt_is_Some_2 clArray (Z.to_nat i) ltac:(lia)) as [z Hz].
  rewrite Hz. unfold binary_pixels in Hbin.
  assert (Hin : In z clArray)
    by (apply list_elem_of_In; eapply list_elem_of_lookup_2; exact Hz).
  pose proof (proj1 (forallb_forall _ _) Hbin z Hin) as Hb.
  cbv beta in Hb.
  destruct (Z.eqb_spec z 0) as [-> | ]; [ left; reflexivity | ].
  destruct (Z.eqb_spec z 1) as [-> | ]; [ right; reflexivity | discriminate ].
Qed.

(** Eight elements that are 0 or 1 make a byte whose bit [7 - t] is the
    element at [i_active + t]: the first of the eight is the most significant
    bit. *)
Lemma pack8_bits clArray i_active t :
  binary_pixels clArray = true ->
  0 <= i_active -> i_active + 8 <= Z.of_nat (length clArray) ->
  0 <= t < 8 ->
  0 <= to_uint8 (pack8 clArray i_active) < 256
  /\ Num (Z.b2z (Z.testbit (to_uint8 (pack8 clArray i_active)) (7 - t)))
     = arr_get clArray (i_active + t).
Proof.
  intros Hbin Ha Hlen Ht.
  assert (H0 := arr_get_binary clArray i_active Hbin ltac:(lia)).
  assert (H1 := arr_get_binary clArray (i_active + 1) Hbin ltac:(lia)).
  assert (H2 := arr_get_binary clArray (i_active + 2) Hbin ltac:(lia)).
  assert (H3 := arr_get_binary clArray (i_active + 3) Hbin ltac:(lia)).
  assert (H4 := arr_get_binary clArray (i_active + 4) Hbin ltac:(lia)).
  assert (H5 := arr_get_binary clArray (i_active + 5) Hbin ltac:(lia)).
  assert (H6 := arr_get_binary clArray (i_active + 6) Hbin ltac:(lia)).
  assert (H7 := arr_get_binary clArray (i_active + 7) Hbin ltac:(lia)).
  assert (Hcases : t = 0 \/ t = 1 \/ t = 2 \/ t = 3 \/ t = 4 \/ t = 5
                   \/ t = 6 \/ t = 7) by lia.
  unfold pack8.
  destruct Hcases as [-> | [-> | [-> | [-> | [-> | [-> | [-> | ->]]]]]]];
    rewrite ?Z.add_0_r;
    destruct H0 as [-> | ->], H1 as [-> | ->], H2 as [-> | ->],
      H3 as [-> | ->], H4 as [-> | ->], H5 as [-> | ->], H6 as [-> | ->],
      H7 as [-> | ->];
    vm_compute; (split; [ split; [ discriminate | reflexivity ] | reflexivity ]).
Qed.

Lemma shl_3_small i_row :
  0 <= i_row < 2 ^ 28 -> num_of (shl (Num i_row) 3) = 8 * i_row.
Proof.
  intros Hi. unfold shl. cbn [num_of to_int32].
  rewrite (wrap32_small i_row) by lia.
  rewrite Z.shiftl_mul_pow2 by lia. rewrite wrap32_small; lia.
Qed.

(** With [rowSize] bytes of eight pixels in every row, byte [col] of file row
    [row] packs the eight pixels from [8 col] on of image row
    [height - 1 - row]. *)
Lemma fillColorData_1_rows bytes clArray paletteSize rowSize height delta
    row col :
  0 < rowSize < 2 ^ 28 -> 0 < height -> 0 <= delta -> 0 <= paletteSize ->
  Z.of_nat (length clArray) = 8 * rowSize * height ->
  0 <= row < height -> 0 <= col < rowSize ->
  54 + paletteSize + row * (rowSize + delta) + col < Z.of_nat (length bytes) ->
  u8_get (fillColorData_1 bytes clArray paletteSize rowSize delta)
    (54 + paletteSize + row * (rowSize + delta) + col)
  = Some (to_uint8
            (pack8 clArray ((height - 1 - row) * (8 * rowSize) + 8 * col))).
Proof.
  intros Hw Hh Hdelta Hpal Hlen Hrow Hcol Hp.
  rewrite fillColorData_1_scan.
  replace (Z.of_nat (length clArray)) with (8 * (rowSize * height)) by lia.
  rewrite for_count_8 by nia.
  set (c := {| c_bytes := bytes;
               c_k := FILE_HEADER_SIZE + IMG_HEADER_SIZE + paletteSize;
               c_i_row := 0;
               c_i0 := 8 * (rowSize * height) - rowSize * PIX_1BIT |}).
  pose proof (scan_rows (cell_1 clArray) rowSize delta (rowSize * PIX_1BIT)
                Hdelta ltac:(lia) (Z.to_nat (rowSize * height)) c row col) as H.
  subst c. cbn [c_bytes c_k c_i_row c_i0] in H.
  unfold FILE_HEADER_SIZE, IMG_HEADER_SIZE, PIX_1BIT in *.
  change (14 + 40) with 54 in *.
  rewrite H by (try reflexivity; nia).
  unfold cell_1. rewrite shl_3_small by lia. do 3 f_equal. lia.
Qed.

Lemma shl_1_small i_row :
  0 <= i_row < 2 ^ 30 -> num_of (shl (Num i_row) 1) = 2 * i_row.
Proof.
  intros Hi. unfold shl. cbn [num_of to_int32].
  rewrite (wrap32_small i_row) by lia.
  rewrite Z.shiftl_mul_pow2 by lia. rewrite wrap32_small; lia.
Qed.

(** With [rowSize] bytes of two pixels in every row, byte [col] of file row
    [row] packs the two pixels from [2 col] on of image row
    [height - 1 - row]. *)
Lemma fillColorData_4_rows bytes clArray paletteSize rowSize height delta
    row col :
  0 < rowSize < 2 ^ 30 -> 0 < height -> 0 <= delta -> 0 <= paletteSize ->
  Z.of_nat (length clArray) = 2 * rowSize * height ->
  0 <= row < height -> 0 <= col < rowSize ->
  54 + paletteSize + row * (rowSize + delta) + col < Z.of_nat (length bytes) ->
  u8_get (fillColorData_4 bytes clArray paletteSize rowSize delta)
    (54 + paletteSize + row * (rowSize + delta) + col)
  = Some (to_uint8
            (pack2 clArray ((height - 1 - row) * (2 * rowSize) + 2 * col))).
Proof.
  intros Hw Hh Hdelta Hpal Hlen Hrow Hcol Hp.
  rewrite fillColorData_4_scan.
  assert (Hcount : for_count (Z.of_nat (length clArray)) 2
                   = Z.to_nat (rowSize * height)).
  { unfold for_count. f_equal. rewrite Hlen.
    Z.to_euclidean_division_equations. nia. }
  rewrite Hcount, Hlen.
  set (c := {| c_bytes := bytes;
               c_k := FILE_HEADER_SIZE + IMG_HEADER_SIZE + paletteSize;
               c_i_row := 0;
               c_i0 := 2 * rowSize * height - rowSize * PIX_4BIT |}).
  pose proof (scan_rows (cell_4 clArray) rowSize delta (rowSize * PIX_4BIT)
                Hdelta ltac:(lia) (Z.to_nat (rowSize * height)) c row col) as H.
  subst c. cbn [c_bytes c_k c_i_row c_i0] in H.
  unfold FILE_HEADER_SIZE, IMG_HEADER_SIZE, PIX_4BIT in *.
  change (14 + 40) with 54 in *.
  rewrite H by (try reflexivity; nia).
  unfold cell_4. rewrite shl_1_small by lia. do 3 f_equal. lia.
Qed.

(** The three encoders leave the padding bytes of every row as they were (0,
    in the array createHeader allocates). *)
Lemma fillColorData_padding bytes clArray paletteSize rowSize delta row col :
  0 < rowSize -> 0 <= delta -> 0 <= row ->
  rowSize <= col < rowSize + delta ->
  let p := 54 + paletteSize + row * (rowSize + delta) + col in
  u8_get (fillColorData_1 bytes clArray paletteSize rowSize delta) p
  = u8_get bytes p
  /\ u8_get (fillColorData_4 bytes clArray paletteSize rowSize delta) p
     = u8_get bytes p
  /\ u8_get (fillColorData_8 bytes clArray paletteSize rowSize delta) p
     = u8_get bytes p.
Proof.
  intros Hw Hdelta Hrow Hcol p. subst p.
  rewrite fillColorData_1_scan, fillColorData_4_scan, fillColorData_8_scan.
  change 54 with (FILE_HEADER_SIZE + IMG_HEADER_SIZE).
  split_and!.
  - apply (scan_padding (cell_1 clArray) rowSize delta (rowSize * PIX_1BIT)
             Hdelta Hw _ {| c_bytes := bytes |} row col); [ reflexivity | lia .. ].
  - apply (scan_padding (cell_4 clArray) rowSize delta (rowSize * PIX_4BIT)
             Hdelta Hw _ {| c_bytes := bytes |} row col); [ reflexivity | lia .. ].
  - apply (scan_padding (cell_8 clArray) rowSize delta rowSize
             Hdelta Hw _ {| c_bytes := bytes |} row col); [ reflexivity | lia .. ].
Qed.

(** The file saveAsBMP writes at depth 8: rows bottom-up, pixels left to
    right, and [deltaBase] bytes of 0 after each row. *)
Lemma saveAsBMP_8_rows clArray width height name palette s row col :
  0 < width -> 0 < height ->
  Z.of_nat (length clArray) = width * height ->
  Z.of_nat (length palette) = paletteItems 8 ->
  0 <= row < height ->
  let g := getPixelBytes width height 8 in
  let out := saveAsBMP clArray width height 8 name palette s in
  let p := 54 + 1024 + row * paddedRowSize g + col in
  (0 <= col < width ->
   u8_get (bytes_of out) p
   = Some (to_uint8 (arr_get clArray ((height - 1 - row) * width + col))))
  /\ (width <= col < paddedRowSize g -> u8_get (bytes_of out) p = Some 0).
Proof.
  intros Hw Hh Hlen Hpal Hrow g out p.
  pose proof (fileByteSize_header width height 8 Hw Hh) as Hlow.
  destruct (saveAsBMP_bytes clArray width height 8 name palette s ltac:(lia))
    as (_ & Hi & _).
  fold out in Hi. rewrite Hi by (right; right; reflexivity).
  unfold filledBytes. cbn [Z.eqb Pos.eqb]. fold g.
  pose proof (deltaBase_range width height 8) as Hdelta. fold g in Hdelta.
  change (paletteItems 8) with 256 in Hpal.
  replace (Z.of_nat (length palette) * PALETTE_BYTE_SIZE) with 1024
    by (unfold PALETTE_BYTE_SIZE; lia).
  assert (Hbase : rowSizeBase g = width) by reflexivity.
  assert (Hsize : fileByteSize width height 8
                  = 1078 + (width + deltaBase g) * height).
  { rewrite fileByteSize_eq. fold g. unfold paddedRowSize.
    rewrite Hbase. reflexivity. }
  subst p. unfold paddedRowSize. rewrite Hbase. split.
  - intros Hcol.
    apply (fillColorData_8_rows _ clArray 1024 width height (deltaBase g)
             row col); try lia.
    rewrite length_paletteBytes. nia.
  - intros Hcol.
    destruct (fillColorData_padding (paletteBytes width height 8 palette)
                clArray 1024 width (deltaBase g) row col
                ltac:(lia) ltac:(lia) ltac:(lia) ltac:(lia)) as (_ & _ & ->).
    apply paletteBytes_zero.
    replace (Z.of_nat (length palette) * PALETTE_BYTE_SIZE) with 1024
      by (unfold PALETTE_BYTE_SIZE; lia).
    unfold FILE_HEADER_SIZE, IMG_HEADER_SIZE. nia.
Qed.

(** ** The 1-bit encoder (C2) *)

(** C2 as stated fails for a 1-bit row of 12 pixels, all 1: the row takes the
    two bytes at 62 and 63; the last one is 0xFF, its four low-order bits are
    all set, and the first one is 0x0F, with none of the first pixels in its
    high-order bits. *)
Lemma C2_low_bits_of_last_byte_not_cleared :
  let palette := [ {| R := 0; G := 0; B := 0 |};
                   {| R := 255; G := 255; B := 255 |} ] in
  let out := saveAsBMP [1; 1; 1; 1; 1; 1; 1; 1; 1; 1; 1; 1] 12 1 1 "a.bmp"
               palette (initial_store false) in
  12 mod 8 = 4
  /\ rowSizeBase (getPixelBytes 12 1 1) = 2
  /\ byte_at (bytes_of out) 62 = 15
  /\ byte_at (bytes_of out) 63 = 255
  /\ Z.land (byte_at (bytes_of out) 63) 15 <> 0.
Proof.
  split_and!; [ reflexivity .. | vm_compute; discriminate ].
Qed.

(** C2 as amended: for a 1-bit image whose width is a multiple of 8 (and below
    2^31), with pixels 0 or 1 and the two-entry palette, every byte of a row
    packs eight consecutive pixels of one image row, the first of them in the
    most significant bit and the last in the least significant one; the rows
    ([rowSizeBase], that is width / 8, bytes each) have no unused bit. For
    other widths nothing is stated: the encoder has no masking step. *)
Theorem C2_one_bit_rows_msb_first clArray width height name palette s :
  0 < width < 2 ^ 31 -> width mod 8 = 0 -> 0 < height ->
  Z.of_nat (length clArray) = width * height ->
  binary_pixels clArray = true ->
  Z.of_nat (length palette) = paletteItems 1 ->
  let g := getPixelBytes width height 1 in
  let out := saveAsBMP clArray width height 1 name palette s in
  8 * rowSizeBase g = width
  /\ forall row col t,
       0 <= row < height -> 0 <= col < rowSizeBase g -> 0 <= t < 8 ->
       exists b,
         u8_get (bytes_of out)
           (54 + 8 + row * paddedRowSize g + col) = Some b
         /\ 0 <= b < 256
         /\ Num (Z.b2z (Z.testbit b (7 - t)))
            = arr_get clArray ((height - 1 - row) * width + 8 * col + t).
Proof.
  intros Hw Hmod Hh Hlen Hbin Hpal g out.
  assert (Hbase : 8 * rowSizeBase g = width).
  { subst g. rewrite rowSizeBase_1. Z.to_euclidean_division_equations. lia. }
  split; [ exact Hbase | ].
  intros row col t Hrow Hcol Ht.
  pose proof (fileByteSize_header width height 1 ltac:(lia) Hh) as Hlow.
  destruct (saveAsBMP_bytes clArray width height 1 name palette s ltac:(lia))
    as (_ & Hi & _).
  fold out in Hi. rewrite Hi by (left; reflexivity).
  unfold filledBytes. cbn [Z.eqb Pos.eqb]. fold g.
  pose proof (deltaBase_range width height 1) as Hdelta. fold g in Hdelta.
  change (paletteItems 1) with 2 in Hpal.
  replace (Z.of_nat (length palette) * PALETTE_BYTE_SIZE) with 8
    by (unfold PALETTE_BYTE_SIZE; lia).
  unfold paddedRowSize.
  assert (Hsize : fileByteSize width height 1
                  = 62 + (rowSizeBase g + deltaBase g) * height).
  { rewrite fileByteSize_eq. reflexivity. }
  rewrite (fillColorData_1_rows _ clArray 8 (rowSizeBase g) height
             (deltaBase g) row col);
    [ | lia | lia | lia | lia | nia | lia | lia
      | rewrite length_paletteBytes; nia ].
  eexists. split; [ reflexivity | ].
  replace ((height - 1 - row) * width + 8 * col + t)
    with ((height - 1 - row) * (8 * rowSizeBase g) + 8 * col + t) by nia.
  apply pack8_bits; [ assumption | nia | nia | lia ].
Qed.

Lemma C2_witness :
  let clArray := [1; 0; 1; 1; 0; 0; 1; 0; 0; 1; 1; 1; 0; 0; 0; 1] in
  let palette := [ {| R := 0; G := 0; B := 0 |};
                   {| R := 255; G := 255; B := 255 |} ] in
  let g := getPixelBytes 8 2 1 in
  let out := saveAsBMP clArray 8 2 1 "a.bmp" palette (initial_store false) in
  8 * rowSizeBase g = 8
  /\ forall row col t,
       0 <= row < 2 -> 0 <= col < rowSizeBase g -> 0 <= t < 8 ->
       exists b,
         u8_get (bytes_of out)
           (54 + 8 + row * paddedRowSize g + col) = Some b
         /\ 0 <= b < 256
         /\ Num (Z.b2z (Z.testbit b (7 - t)))
            = arr_get clArray ((2 - 1 - row) * 8 + 8 * col + t).
Proof.
  apply (C2_one_bit_rows_msb_first
           [1; 0; 1; 1; 0; 0; 1; 0; 0; 1; 1; 1; 0; 0; 0; 1] 8 2 "a.bmp"
           [ {| R := 0; G := 0; B := 0 |}; {| R := 255; G := 255; B := 255 |} ]
           (initial_store false)).
  - lia.
  - reflexivity.
  - lia.
  - reflexivity.
  - reflexivity.
  - reflexivity.
Defined.

(** ** Row order at depths 16 and 24 (C1) *)

(** C1, at an input where the code departs from it: a 16-bit image of one
    column and two rows, pixels 1 and 2. Rows take 2 bytes and 2 bytes of
    padding, so C1 has the pixel data read 2 0 0 0 1 0 0 0. saveAsBMP throws
    in fillColorData_16 and leaves the eight bytes at 0; and the loop of
    fillColorData_16, run on that array from offset 54, writes the pixels in
    source order with no padding between the rows: 1 0 2 0. The same image at
    depth 8 is written bottom-up and padded: 2 0 0 0 1 0 0 0. *)
Theorem C1_rows_at_depth_16_not_bottom_up :
  let out := saveAsBMP [1; 2] 1 2 16 "a.bmp" [] (initial_store false) in
  let loop :=
    for_loop_M (for_count 2 1) 0 1 (fillColorData_16_body [1; 2]) 54
      (snd out) in
  let out8 :=
    saveAsBMP [1; 2] 1 2 8 "a.bmp" (replicate 256 {| R := 0; G := 0; B := 0 |})
      (initial_store false) in
  rowSizeBase (getPixelBytes 1 2 16) = 2
  /\ deltaBase (getPixelBytes 1 2 16) = 2
  /\ fst out = Throw (TypeError_assignment_to_constant "FILE_HEADER_SIZE")
  /\ slice (bytes_of out) 54 8 = [0; 0; 0; 0; 0; 0; 0; 0]
  /\ fst loop = Ok 58
  /\ slice (bytes_of loop) 54 8 = [1; 0; 2; 0; 0; 0; 0; 0]
  /\ fst out8 = Ok 0
  /\ slice (bytes_of out8) (54 + 1024) 8 = [2; 0; 0; 0; 1; 0; 0; 0].
Proof.
  split_and!; vm_compute; reflexivity.
Qed.


(** * Further properties of the module *)

(** ** split2bytes on every integer *)

(** X5: whatever the integer, split2bytes returns four numbers between 0 and
    255, the little-endian digits of the value reduced modulo 2^32: a value
    of 2^32 or more, or a negative one, wraps. *)
Theorem X5_split2bytes_wraps_modulo_2_32 val :
  exists b0 b1 b2 b3,
    split2bytes val = [Num b0; Num b1; Num b2; Num b3]
    /\ 0 <= b0 < 256 /\ 0 <= b1 < 256 /\ 0 <= b2 < 256 /\ 0 <= b3 < 256
    /\ b0 + 2 ^ 8 * b1 + 2 ^ 16 * b2 + 2 ^ 24 * b3 = val mod 2 ^ 32.
Proof.
  unfold split2bytes, and, shr. cbn [to_int32].
  change (wrap32 255) with 255.
  pose proof (wrap32_range val) as Hr.
  assert (Ht0 : wrap32 val mod 2 ^ 32 = val mod 2 ^ 32).
  { unfold wrap32. Z.to_euclidean_division_equations. lia. }
  set (t0 := wrap32 val) in *.
  rewrite !Z.shiftr_div_pow2 by lia.
  set (t1 := t0 / 2 ^ 8).
  assert (Hr1 : - 2 ^ 31 <= t1 < 2 ^ 31)
    by (subst t1; Z.to_euclidean_division_equations; lia).
  rewrite (wrap32_small t1) by exact Hr1.
  set (t2 := t1 / 2 ^ 8).
  assert (Hr2 : - 2 ^ 31 <= t2 < 2 ^ 31)
    by (subst t2; Z.to_euclidean_division_equations; lia).
  rewrite (wrap32_small t2) by exact Hr2.
  set (t3 := t2 / 2 ^ 8).
  assert (Hr3 : - 2 ^ 31 <= t3 < 2 ^ 31)
    by (subst t3; Z.to_euclidean_division_equations; lia).
  rewrite (wrap32_small t3) by exact Hr3.
  rewrite !land_255.
  eexists _, _, _, _. split; [ reflexivity | ].
  rewrite <- Ht0. subst t3 t2 t1. clearbody t0.
  split_and!; Z.to_euclidean_division_equations; lia.
Qed.

(** ** getPixelBytes on every integer *)

(** X7: for the five supported depths and every integer width, [rowSizeBase]
    is the ceiling of depth * width / 8, except at depth 1 for a width whose
    remainder modulo 8 is 1, 2 or 3, where it is one less. *)
Theorem X7_rowSizeBase_against_ceiling width height encoding :
  supported_depth encoding ->
  rowSizeBase (getPixelBytes width height encoding)
  = ceil_div (encoding * width) 8
    - (if (encoding =? 1) && (1 <=? width mod 8) && (width mod 8 <=? 3)
       then 1 else 0).
Proof.
  intros Hd. depth_cases Hd.
  - rewrite rowSizeBase_1. cbn [Z.eqb Pos.eqb andb]. unfold ceil_div.
    destruct (Z.leb_spec 1 (width mod 8)), (Z.leb_spec (width mod 8) 3);
      cbn [andb]; Z.to_euclidean_division_equations; lia.
  - cbn. unfold round_div, ceil_div. Z.to_euclidean_division_equations. lia.
  - cbn. unfold ceil_div. Z.to_euclidean_division_equations. lia.
  - cbn. unfold ceil_div. Z.to_euclidean_division_equations. lia.
  - cbn. unfold ceil_div. Z.to_euclidean_division_equations. lia.
Qed.

Lemma X7_witness :
  rowSizeBase (getPixelBytes 11 3 1)
  = ceil_div (1 * 11) 8
    - (if (1 =? 1) && (1 <=? 11 mod 8) && (11 mod 8 <=? 3) then 1 else 0).
Proof.
  apply (X7_rowSizeBase_against_ceiling 11 3 1).
  unfold supported_depth. lia.
Defined.

(** X11: for every integer width and height and every depth, supported or
    not, the padded row size is a multiple of 4, it is at least [rowSizeBase]
    and exceeds it by at most 3 (so it is the least such multiple, also for a
    negative width), and [pixelSize] is the padded row size times the
    height. *)
Theorem X11_padding_for_every_width_and_depth width height encoding :
  let g := getPixelBytes width height encoding in
  paddedRowSize g mod 4 = 0
  /\ 0 <= paddedRowSize g - rowSizeBase g <= 3
  /\ deltaBase g = paddedRowSize g - rowSizeBase g
  /\ pixelSize g = paddedRowSize g * height.
Proof.
  intros g. pose proof (deltaBase_range width height encoding) as Hd.
  fold g in Hd.
  split; [ | split; [ unfold paddedRowSize; lia | split;
    [ unfold paddedRowSize; lia | apply pixelSize_padded ] ] ].
  subst g. unfold paddedRowSize, getPixelBytes; cbn [rowSizeBase deltaBase].
  unfold rem.
  set (r := if encoding =? 1 then _ else _). clearbody r.
  destruct (Z.ltb_spec 0 (Z.rem r 4));
    Z.to_euclidean_division_equations; lia.
Qed.

(** ** The rest of the header *)

(** X6: for a positive width and height and any depth, the header saveAsBMP
    leaves has 0 in the reserved field at 6, in the image size at 34, in the
    two bytes at 48 and in the important-colour count at 50; the palette
    entry count at 46 is 2, 16 or 256 at depths 1, 4, 8 and 0 at any other
    depth; and the pixel-data offset at 10 is 54 plus 4 times that count. *)
Theorem X6_header_counts_and_reserved clArray width height encoding name
    palette s :
  0 < width -> 0 < height ->
  let bytes :=
    bytes_of (saveAsBMP clArray width height encoding name palette s) in
  le32 bytes 6 = 0
  /\ le32 bytes 34 = 0
  /\ le16 bytes 46 = paletteItems encoding
  /\ le16 bytes 48 = 0
  /\ le32 bytes 50 = 0
  /\ le32 bytes 10 = 54 + 4 * le16 bytes 46.
Proof.
  intros Hw Hh bytes.
  pose proof (fileByteSize_header width height encoding Hw Hh) as Hlow.
  assert (Hsize : FILE_HEADER_SIZE + IMG_HEADER_SIZE
                  <= fileByteSize width height encoding)
    by (unfold FILE_HEADER_SIZE, IMG_HEADER_SIZE; lia).
  assert (Hcount : le16 bytes 46 = paletteItems encoding).
  { subst bytes. header_bytes Hsize.
    unfold paletteItems. repeat case_match; reflexivity. }
  rewrite Hcount. subst bytes.
  split_and!.
  - header_bytes Hsize. reflexivity.
  - header_bytes Hsize. reflexivity.
  - reflexivity.
  - header_bytes Hsize. reflexivity.
  - header_bytes Hsize. reflexivity.
  - header_bytes Hsize. rewrite split2bytes_le.
    + rewrite getPaletteBytes_paletteItems. reflexivity.
    + rewrite getPaletteBytes_paletteItems.
      pose proof (paletteItems_range encoding).
      unfold FILE_HEADER_SIZE, IMG_HEADER_SIZE, PALETTE_BYTE_SIZE. lia.
Qed.

Lemma X6_witness :
  let bytes :=
    bytes_of (saveAsBMP [1; 2; 3; 4] 2 2 4 "a.bmp" [] (initial_store false)) in
  le32 bytes 6 = 0
  /\ le32 bytes 34 = 0
  /\ le16 bytes 46 = paletteItems 4
  /\ le16 bytes 48 = 0
  /\ le32 bytes 50 = 0
  /\ le32 bytes 10 = 54 + 4 * le16 bytes 46.
Proof.
  apply (X6_header_counts_and_reserved [1; 2; 3; 4] 2 2 4 "a.bmp" []
           (initial_store false)).
  - lia.
  - lia.
Defined.

(** ** A negative file size *)

(** X8: when the size computed for the file is negative (a height negative
    enough), saveAsBMP rejects with the RangeError of [new Uint8Array]: no
    array is allocated, nothing is written, and the store is as it was. *)
Theorem X8_negative_size_is_a_RangeError clArray width height encoding name
    palette s :
  fileByteSize width height encoding < 0 ->
  saveAsBMP clArray width height encoding name palette s
  = (Throw (RangeError_invalid_length
              (FILE_HEADER_SIZE + IMG_HEADER_SIZE + getPaletteBytes encoding
               + paddedRowSize (getPixelBytes width height encoding) * height)),
     s).
Proof.
  intros Hneg. unfold saveAsBMP, bind.
  rewrite createHeader_range_error by assumption.
  rewrite fileByteSize_eq. reflexivity.
Qed.

Lemma X8_witness :
  saveAsBMP [1; 2] 1 (-100) 24 "a.bmp" [] (initial_store false)
  = (Throw (RangeError_invalid_length
              (FILE_HEADER_SIZE + IMG_HEADER_SIZE + getPaletteBytes 24
               + paddedRowSize (getPixelBytes 1 (-100) 24) * (-100))),
     initial_store false).
Proof.
  apply (X8_negative_size_is_a_RangeError [1; 2] 1 (-100) 24 "a.bmp" []
           (initial_store false)).
  vm_compute. reflexivity.
Defined.

(** ** fillPalette on any array *)

(** X9: fillPalette keeps the length of the array and every byte outside
    the offsets 54 to 54 + 4 n - 1 (n entries); an entry that lies inside the
    array is stored as R, G, B modulo 256 and 0, so a channel outside 0..255
    wraps, and an entry past the end of the array is dropped. *)
Theorem X9_fillPalette_on_any_array bytes palette :
  length (fillPalette bytes palette) = length bytes
  /\ (forall p,
        p < 54 \/ 54 + 4 * Z.of_nat (length palette) <= p ->
        u8_get (fillPalette bytes palette) p = u8_get bytes p)
  /\ (forall (i : nat) c,
        palette !! i = Some c ->
        54 + 4 * Z.of_nat i + 3 < Z.of_nat (length bytes) ->
        u8_get (fillPalette bytes palette) (54 + 4 * Z.of_nat i)
        = Some (R c mod 256)
        /\ u8_get (fillPalette bytes palette) (54 + 4 * Z.of_nat i + 1)
           = Some (G c mod 256)
        /\ u8_get (fillPalette bytes palette) (54 + 4 * Z.of_nat i + 2)
           = Some (B c mod 256)
        /\ u8_get (fillPalette bytes palette) (54 + 4 * Z.of_nat i + 3)
           = Some 0)
  /\ (forall p, Z.of_nat (length bytes) <= p ->
        u8_get (fillPalette bytes palette) p = None).
Proof.
  split_and!.
  - apply length_fillPalette.
  - intros p [Hp | Hp]; unfold fillPalette, FILE_HEADER_SIZE, IMG_HEADER_SIZE.
    + apply fillPalette_loop_lt. lia.
    + apply fillPalette_loop_ge. lia.
  - intros i c Hc Hlen. unfold fillPalette, FILE_HEADER_SIZE, IMG_HEADER_SIZE.
    change (14 + 40) with 54.
    pose proof (fillPalette_loop_entry palette 54 bytes i c 0 (Num (R c))
                  ltac:(lia) Hc eq_refl) as E0.
    pose proof (fillPalette_loop_entry palette 54 bytes i c 1 (Num (G c))
                  ltac:(lia) Hc eq_refl) as E1.
    pose proof (fillPalette_loop_entry palette 54 bytes i c 2 (Num (B c))
                  ltac:(lia) Hc eq_refl) as E2.
    pose proof (fillPalette_loop_entry palette 54 bytes i c 3 (Num 0)
                  ltac:(lia) Hc eq_refl) as E3.
    cbn [to_uint8] in E0, E1, E2, E3.
    change (0 mod 256) with 0 in E3.
    change (Z.of_nat 0) with 0 in E0. change (Z.of_nat 1) with 1 in E1.
    change (Z.of_nat 2) with 2 in E2. change (Z.of_nat 3) with 3 in E3.
    rewrite Z.add_0_r in E0.
    split_and!; [ apply E0 | apply E1 | apply E2 | apply E3 ]; lia.
  - intros p Hp. unfold u8_get.
    destruct (Z.leb_spec 0 p); [ | reflexivity ].
    apply lookup_ge_None_2. rewrite length_fillPalette. lia.
Qed.

Lemma X9_witness :
  let bytes := replicate 70 0 in
  let palette := [ {| R := 300; G := -1; B := 7 |};
                   {| R := 1; G := 2; B := 3 |} ] in
  length (fillPalette bytes palette) = length bytes
  /\ u8_get (fillPalette bytes palette) 20 = u8_get bytes 20
  /\ u8_get (fillPalette bytes palette) 54 = Some (300 mod 256)
  /\ u8_get (fillPalette bytes palette) 55 = Some (-1 mod 256)
  /\ u8_get (fillPalette bytes palette) 70 = None.
Proof.
  destruct (X9_fillPalette_on_any_array (replicate 70 0)
              [ {| R := 300; G := -1; B := 7 |}; {| R := 1; G := 2; B := 3 |} ])
    as (Hlen & Hframe & Hentry & Hout).
  split_and!.
  - exact Hlen.
  - apply Hframe. left. lia.
  - apply (Hentry 0%nat {| R := 300; G := -1; B := 7 |}).
    + reflexivity.
    + simpl. lia.
  - apply (Hentry 0%nat {| R := 300; G := -1; B := 7 |}).
    + reflexivity.
    + simpl. lia.
  - apply Hout. simpl. lia.
Defined.

(** ** Rows of a pixel array of any length *)

Lemma arr_get_outside clArray i :
  i < 0 \/ Z.of_nat (length clArray) <= i -> arr_get clArray i = Undefined.
Proof.
  intros Hi. unfold arr_get. destruct (Z.leb_spec 0 i); [ | reflexivity ].
  rewrite lookup_ge_None_2 by lia. reflexivity.
Qed.

Lemma for_count_lt n step x :
  0 < step -> 0 <= x -> x * step < n -> x < Z.of_nat (for_count n step).
Proof.
  intros Hstep Hx Hlt.
  pose proof (proj2 (for_count_spec n step (Z.to_nat x) Hstep)) as H.
  rewrite Z2Nat.id in H by assumption. specialize (H Hlt). lia.
Qed.

(** The 8-bit encoder counts the rows from the end of the array, whatever its
    length. *)
Lemma fillColorData_8_rows_any bytes clArray paletteSize rowSize delta row col :
  0 < rowSize -> 0 <= delta -> 0 <= paletteSize ->
  0 <= row -> 0 <= col < rowSize ->
  row * rowSize + col < Z.of_nat (length clArray) ->
  54 + paletteSize + row * (rowSize + delta) + col < Z.of_nat (length bytes) ->
  u8_get (fillColorData_8 bytes clArray paletteSize rowSize delta)
    (54 + paletteSize + row * (rowSize + delta) + col)
  = Some (to_uint8
            (arr_get clArray
               (Z.of_nat (length clArray) - (row + 1) * rowSize + col))).
Proof.
  intros Hw Hdelta Hpal Hrow Hcol Hlt Hp.
  rewrite fillColorData_8_scan, for_count_1.
  set (c := {| c_bytes := bytes;
               c_k := FILE_HEADER_SIZE + IMG_HEADER_SIZE + paletteSize;
               c_i_row := 0;
               c_i0 := Z.of_nat (length clArray) - rowSize |}).
  pose proof (scan_rows (cell_8 clArray) rowSize delta rowSize Hdelta Hw
                (Z.to_nat (Z.of_nat (length clArray))) c row col) as H.
  subst c. cbn [c_bytes c_k c_i_row c_i0] in H.
  unfold FILE_HEADER_SIZE, IMG_HEADER_SIZE in *.
  change (14 + 40) with 54 in *.
  rewrite H by (try reflexivity; lia).
  unfold cell_8. do 3 f_equal. lia.
Qed.

(** So does the 1-bit encoder, in rows of [8 * rowSize] elements. *)
Lemma fillColorData_1_rows_any bytes clArray paletteSize rowSize delta
    row col :
  0 < rowSize <= 2 ^ 28 -> 0 <= delta -> 0 <= paletteSize ->
  0 <= row -> 0 <= col < rowSize ->
  8 * (row * rowSize + col) < Z.of_nat (length clArray) ->
  54 + paletteSize + row * (rowSize + delta) + col < Z.of_nat (length bytes) ->
  u8_get (fillColorData_1 bytes clArray paletteSize rowSize delta)
    (54 + paletteSize + row * (rowSize + delta) + col)
  = Some (to_uint8
            (pack8 clArray
               (Z.of_nat (length clArray) - 8 * rowSize * (row + 1)
                + 8 * col))).
Proof.
  intros Hw Hdelta Hpal Hrow Hcol Hlt Hp.
  rewrite fillColorData_1_scan.
  set (c := {| c_bytes := bytes;
               c_k := FILE_HEADER_SIZE + IMG_HEADER_SIZE + paletteSize;
               c_i_row := 0;
               c_i0 := Z.of_nat (length clArray) - rowSize * PIX_1BIT |}).
  pose proof (scan_rows (cell_1 clArray) rowSize delta (rowSize * PIX_1BIT)
                Hdelta ltac:(lia)
                (for_count (Z.of_nat (length clArray)) 8) c row col) as H.
  subst c. cbn [c_bytes c_k c_i_row c_i0] in H.
  unfold FILE_HEADER_SIZE, IMG_HEADER_SIZE, PIX_1BIT in *.
  change (14 + 40) with 54 in *.
  rewrite H; try reflexivity; try lia.
  - unfold cell_1. rewrite shl_3_small by lia. do 3 f_equal. lia.
  - apply for_count_lt; nia.
Qed.

(** The byte of [pack8] depends on the first seven elements through their
    32-bit value only, for which an element outside the array is a 0. *)
Lemma pack8_ext A a B b :
  arr_get A (a + 7) = arr_get B (b + 7) ->
  (forall t, 0 <= t < 7 ->
     to_int32 (arr_get A (a + t)) = to_int32 (arr_get B (b + t))) ->
  pack8 A a = pack8 B b.
Proof.
  intros H7 H. unfold pack8, shl. rewrite H7.
  rewrite (H 6), (H 5), (H 4), (H 3), (H 2), (H 1) by lia.
  pose proof (H 0 ltac:(lia)) as H0. rewrite !Z.add_0_r in H0.
  rewrite H0. reflexivity.
Qed.

Lemma arr_get_padded (k : nat) clArray i :
  arr_get (replicate k 0 ++ clArray) (i + Z.of_nat k)
  = if 0 <=? i then arr_get clArray i
    else if - Z.of_nat k <=? i then Num 0 else Undefined.
Proof.
  unfold arr_get.
  destruct (Z.leb_spec 0 i) as [Hi | Hi].
  - destruct (Z.leb_spec 0 (i + Z.of_nat k)); [ | lia ].
    rewrite lookup_app_r by (rewrite length_replicate; lia).
    rewrite length_replicate.
    replace (Z.to_nat (i + Z.of_nat k) - k)%nat with (Z.to_nat i) by lia.
    reflexivity.
  - destruct (Z.leb_spec (- Z.of_nat k) i) as [Hk | Hk].
    + destruct (Z.leb_spec 0 (i + Z.of_nat k)); [ | lia ].
      rewrite lookup_app_l by (rewrite length_replicate; lia).
      rewrite lookup_replicate_2 by lia. reflexivity.
    + destruct (Z.leb_spec 0 (i + Z.of_nat k)); [ lia | reflexivity ].
Qed.

Lemma binary_pixels_padded (k : nat) clArray :
  binary_pixels clArray = true ->
  binary_pixels (replicate k 0 ++ clArray) = true.
Proof.
  intros Hbin. unfold binary_pixels in *. rewrite forallb_app, Hbin.
  rewrite andb_true_r. induction k as [ | k IH ]; [ reflexivity | exact IH ].
Qed.

(** Bit [7 - t] of the byte is element [t] of the eight, an element before
    the start of the array counting as 0. *)
Lemma pack8_bits_any clArray i_active t :
  binary_pixels clArray = true ->
  i_active + 7 < Z.of_nat (length clArray) ->
  0 <= t < 8 ->
  0 <= to_uint8 (pack8 clArray i_active) < 256
  /\ Z.b2z (Z.testbit (to_uint8 (pack8 clArray i_active)) (7 - t))
     = num_of (arr_get clArray (i_active + t)).
Proof.
  intros Hbin Hlen Ht.
  destruct (Z.lt_ge_cases (i_active + 7) 0) as [Hneg | Hpos].
  - unfold pack8. rewrite (arr_get_outside clArray (i_active + 7)) by lia.
    rewrite (arr_get_outside clArray (i_active + t)) by lia.
    cbn. rewrite Z.testbit_0_l. split; [ lia | reflexivity ].
  - set (k := Z.to_nat (Z.max 0 (- i_active))).
    assert (Hext : pack8 clArray i_active
                   = pack8 (replicate k 0 ++ clArray) (i_active + Z.of_nat k)).
    { apply pack8_ext.
      - replace (i_active + Z.of_nat k + 7) with (i_active + 7 + Z.of_nat k)
          by lia.
        rewrite arr_get_padded.
        destruct (Z.leb_spec 0 (i_active + 7)); [ reflexivity | lia ].
      - intros u Hu.
        replace (i_active + Z.of_nat k + u) with (i_active + u + Z.of_nat k)
          by lia.
        rewrite arr_get_padded.
        destruct (Z.leb_spec 0 (i_active + u)) as [ | Hu0 ]; [ reflexivity | ].
        rewrite (arr_get_outside clArray (i_active + u)) by lia.
        destruct (Z.leb_spec (- Z.of_nat k) (i_active + u)); reflexivity. }
    rewrite Hext.
    destruct (pack8_bits (replicate k 0 ++ clArray) (i_active + Z.of_nat k) t
                (binary_pixels_padded k clArray Hbin) ltac:(lia)
                ltac:(rewrite length_app, length_replicate; lia) Ht)
      as (Hrange & Hbit).
    split; [ exact Hrange | ].
    replace (i_active + Z.of_nat k + t) with (i_active + t + Z.of_nat k)
      in Hbit by lia.
    rewrite arr_get_padded in Hbit.
    destruct (Z.leb_spec 0 (i_active + t)) as [ | Ht0 ].
    + rewrite <- Hbit. reflexivity.
    + rewrite (arr_get_outside clArray (i_active + t)) by lia.
      destruct (Z.leb_spec (- Z.of_nat k) (i_active + t)); [ | lia ].
      injection Hbit as ->. reflexivity.
Qed.

(** ** The encoders for 1, 4 and 8 bits on any array *)

(** X4: whatever the pixels, the palette size, the row size and the padding
    (not negative), the encoders for 1, 4 and 8 bits keep the length of the
    array and every byte below 54 + paletteSize: they never touch the header
    or the palette entries before the pixel data. *)
Theorem X4_encoders_keep_header_and_palette bytes clArray paletteSize rowSize
    delta :
  0 <= delta ->
  length (fillColorData_1 bytes clArray paletteSize rowSize delta)
  = length bytes
  /\ length (fillColorData_4 bytes clArray paletteSize rowSize delta)
     = length bytes
  /\ length (fillColorData_8 bytes clArray paletteSize rowSize delta)
     = length bytes
  /\ forall p, p < 54 + paletteSize ->
       u8_get (fillColorData_1 bytes clArray paletteSize rowSize delta) p
       = u8_get bytes p
       /\ u8_get (fillColorData_4 bytes clArray paletteSize rowSize delta) p
          = u8_get bytes p
       /\ u8_get (fillColorData_8 bytes clArray paletteSize rowSize delta) p
          = u8_get bytes p.
Proof.
  intros Hdelta.
  rewrite fillColorData_1_scan, fillColorData_4_scan, fillColorData_8_scan.
  rewrite !scan_length. cbn [c_bytes].
  split_and!; try reflexivity.
  intros p Hp.
  split_and!; apply scan_frame; try assumption;
    cbn [c_k]; unfold FILE_HEADER_SIZE, IMG_HEADER_SIZE; lia.
Qed.

Lemma X4_witness :
  let bytes := replicate 80 7 in
  let clArray := [1; 2; 3; 4; 5; 6] in
  length (fillColorData_1 bytes clArray 8 1 3) = length bytes
  /\ length (fillColorData_4 bytes clArray 8 1 3) = length bytes
  /\ length (fillColorData_8 bytes clArray 8 1 3) = length bytes
  /\ forall p, p < 54 + 8 ->
       u8_get (fillColorData_1 bytes clArray 8 1 3) p = u8_get bytes p
       /\ u8_get (fillColorData_4 bytes clArray 8 1 3) p = u8_get bytes p
       /\ u8_get (fillColorData_8 bytes clArray 8 1 3) p = u8_get bytes p.
Proof.
  apply (X4_encoders_keep_header_and_palette (replicate 80 7)
           [1; 2; 3; 4; 5; 6] 8 1 3).
  lia.
Defined.

(** ** The file at depth 8 *)

(** X1: at depth 8, for a positive width and height, a pixel array of
    width * height elements and a palette of any length, saveAsBMP puts pixel
    [col] of image row [height - 1 - row], reduced modulo 256, at offset
    54 + 4 * palette.length + row * (padded row size) + col (where that lies
    in the file): rows bottom-up, pixels left to right, one byte each. *)
Theorem X1_depth_8_rows_bottom_up clArray width height name palette s
    row col z :
  0 < width -> 0 < height ->
  Z.of_nat (length clArray) = width * height ->
  0 <= row < height -> 0 <= col < width ->
  clArray !! Z.to_nat ((height - 1 - row) * width + col) = Some z ->
  let g := getPixelBytes width height 8 in
  let p := 54 + 4 * Z.of_nat (length palette) + row * paddedRowSize g + col in
  p < fileByteSize width height 8 ->
  u8_get (bytes_of (saveAsBMP clArray width height 8 name palette s)) p
  = Some (z mod 256).
Proof.
  intros Hw Hh Hlen Hrow Hcol Hz g p Hp.
  pose proof (fileByteSize_header width height 8 Hw Hh) as Hlow.
  destruct (saveAsBMP_bytes clArray width height 8 name palette s ltac:(lia))
    as (_ & Hi & _).
  rewrite Hi by (right; right; reflexivity).
  unfold filledBytes. cbn [Z.eqb Pos.eqb]. fold g.
  pose proof (deltaBase_range width height 8) as Hdelta. fold g in Hdelta.
  assert (Hbase : rowSizeBase g = width) by reflexivity.
  subst p. unfold paddedRowSize, PALETTE_BYTE_SIZE in *. rewrite Hbase in *.
  replace (Z.of_nat (length palette) * 4)
    with (4 * Z.of_nat (length palette)) by lia.
  rewrite (fillColorData_8_rows_any _ clArray _ width (deltaBase g) row col)
    by (rewrite ?length_paletteBytes; nia).
  rewrite Hlen.
  replace (width * height - (row + 1) * width + col)
    with ((height - 1 - row) * width + col) by lia.
  unfold arr_get. destruct (Z.leb_spec 0 ((height - 1 - row) * width + col));
    [ | nia ].
  rewrite Hz. reflexivity.
Qed.

Lemma X1_witness :
  u8_get (bytes_of (saveAsBMP [1; 2; 3; 300; 5; 6] 3 2 8 "a.bmp" []
                      (initial_store false)))
    (54 + 4 * Z.of_nat (length (@nil rgb))
     + 0 * paddedRowSize (getPixelBytes 3 2 8) + 0)
  = Some (300 mod 256).
Proof.
  apply (X1_depth_8_rows_bottom_up [1; 2; 3; 300; 5; 6] 3 2 "a.bmp" []
           (initial_store false) 0 0 300).
  - lia.
  - lia.
  - reflexivity.
  - lia.
  - lia.
  - reflexivity.
  - vm_compute. reflexivity.
Defined.

(** X10: the length of the pixel array is not checked against
    width * height. At depth 8, whatever the length, byte [col] of file row
    [row] is the element [col] of the [row + 1]-th group of [width] elements
    counted from the end of the array, for as many bytes as the array has
    elements; an index that falls before the start of the array reads
    [undefined] and is stored as 0. *)
Theorem X10_depth_8_rows_counted_from_the_end clArray width height name
    palette s row col :
  0 < width -> 0 < height ->
  0 <= row -> 0 <= col < width ->
  row * width + col < Z.of_nat (length clArray) ->
  let g := getPixelBytes width height 8 in
  let p := 54 + 4 * Z.of_nat (length palette) + row * paddedRowSize g + col in
  p < fileByteSize width height 8 ->
  u8_get (bytes_of (saveAsBMP clArray width height 8 name palette s)) p
  = Some (to_uint8
            (arr_get clArray
               (Z.of_nat (length clArray) - (row + 1) * width + col))).
Proof.
  intros Hw Hh Hrow Hcol Hlt g p Hp.
  pose proof (fileByteSize_header width height 8 Hw Hh) as Hlow.
  destruct (saveAsBMP_bytes clArray width height 8 name palette s ltac:(lia))
    as (_ & Hi & _).
  rewrite Hi by (right; right; reflexivity).
  unfold filledBytes. cbn [Z.eqb Pos.eqb]. fold g.
  pose proof (deltaBase_range width height 8) as Hdelta. fold g in Hdelta.
  assert (Hbase : rowSizeBase g = width) by reflexivity.
  subst p. unfold paddedRowSize, PALETTE_BYTE_SIZE in *. rewrite Hbase in *.
  replace (Z.of_nat (length palette) * 4)
    with (4 * Z.of_nat (length palette)) by lia.
  apply fillColorData_8_rows_any; rewrite ?length_paletteBytes; lia.
Qed.

Lemma X10_witness :
  u8_get (bytes_of (saveAsBMP [1; 2; 3; 4; 5] 3 2 8 "a.bmp" []
                      (initial_store false)))
    (54 + 4 * Z.of_nat (length (@nil rgb))
     + 1 * paddedRowSize (getPixelBytes 3 2 8) + 0)
  = Some (to_uint8
            (arr_get [1; 2; 3; 4; 5]
               (Z.of_nat (length [1; 2; 3; 4; 5]) - (1 + 1) * 3 + 0))).
Proof.
  apply (X10_depth_8_rows_counted_from_the_end [1; 2; 3; 4; 5] 3 2 "a.bmp" []
           (initial_store false) 1 0).
  - lia.
  - lia.
  - lia.
  - lia.
  - simpl. lia.
  - vm_compute. reflexivity.
Defined.

(** ** Row padding at depths 1, 4 and 8 *)

(** X2: at depths 1, 4 and 8, when the rows have at least one byte, the
    [deltaBase] bytes that follow the [rowSizeBase] bytes of a row in the file
    of saveAsBMP are 0, whatever the pixels and the width. *)
Theorem X2_row_padding_is_zero clArray width height encoding name palette s
    row col :
  indexed_depth encoding -> 0 < width -> 0 < height ->
  let g := getPixelBytes width height encoding in
  0 < rowSizeBase g ->
  0 <= row -> rowSizeBase g <= col < paddedRowSize g ->
  let p := 54 + 4 * Z.of_nat (length palette) + row * paddedRowSize g + col in
  p < fileByteSize width height encoding ->
  u8_get (bytes_of (saveAsBMP clArray width height encoding name palette s)) p
  = Some 0.
Proof.
  intros Hd Hw Hh g Hbase Hrow Hcol p Hp.
  pose proof (fileByteSize_header width height encoding Hw Hh) as Hlow.
  destruct (saveAsBMP_bytes clArray width height encoding name palette s
              ltac:(lia)) as (_ & Hi & _).
  rewrite (Hi Hd).
  pose proof (deltaBase_range width height encoding) as Hdelta.
  fold g in Hdelta.
  destruct (fillColorData_padding
              (paletteBytes width height encoding palette) clArray
              (Z.of_nat (length palette) * PALETTE_BYTE_SIZE)
              (rowSizeBase g) (deltaBase g) row col Hbase
              ltac:(lia) Hrow Hcol) as (P1 & P4 & P8).
  assert (Hpz : u8_get (paletteBytes width height encoding palette) p = Some 0).
  { apply paletteBytes_zero. subst p.
    unfold FILE_HEADER_SIZE, IMG_HEADER_SIZE, PALETTE_BYTE_SIZE,
      paddedRowSize in *. nia. }
  assert (Hpeq : 54 + Z.of_nat (length palette) * PALETTE_BYTE_SIZE
                 + row * (rowSizeBase g + deltaBase g) + col = p).
  { subst p. unfold PALETTE_BYTE_SIZE, paddedRowSize. lia. }
  rewrite Hpeq in P1, P4, P8.
  unfold filledBytes. fold g.
  destruct Hd as [-> | [-> | ->]]; cbn [Z.eqb Pos.eqb];
    [ rewrite P1 | rewrite P4 | rewrite P8 ]; exact Hpz.
Qed.

Lemma X2_witness :
  u8_get (bytes_of (saveAsBMP [1; 2; 3; 4; 5; 6] 3 2 4 "a.bmp" []
                      (initial_store false)))
    (54 + 4 * Z.of_nat (length (@nil rgb))
     + 1 * paddedRowSize (getPixelBytes 3 2 4) + 3)
  = Some 0.
Proof.
  apply (X2_row_padding_is_zero [1; 2; 3; 4; 5; 6] 3 2 4 "a.bmp" []
           (initial_store false) 1 3).
  - unfold indexed_depth. lia.
  - lia.
  - lia.
  - reflexivity.
  - lia.
  - vm_compute. split; [ discriminate | reflexivity ].
  - vm_compute. reflexivity.
Defined.

(** ** The file at depth 4 *)

Lemma small_nat_of z : 0 <= z < 16 -> exists n : nat, (n < 16)%nat /\ z = Z.of_nat n.
Proof. intros Hz. exists (Z.to_nat z). lia. Qed.

(** Two palette indices below 16 make the byte with the first in the high
    nibble and the second in the low one. *)
Lemma pack2_nibbles clArray i_active z0 z1 :
  arr_get clArray i_active = Num z0 ->
  arr_get clArray (i_active + 1) = Num z1 ->
  0 <= z0 < 16 -> 0 <= z1 < 16 ->
  to_uint8 (pack2 clArray i_active) = 16 * z0 + z1.
Proof.
  intros H0 H1 Hz0 Hz1. unfold pack2. rewrite H0, H1.
  destruct (small_nat_of z0 Hz0) as (n0 & Hn0 & ->).
  destruct (small_nat_of z1 Hz1) as (n1 & Hn1 & ->).
  clear - Hn0 Hn1.
  do 16 (destruct n0 as [ | n0 ];
         [ do 16 (destruct n1 as [ | n1 ]; [ reflexivity | ]); lia | ]).
  lia.
Qed.

Lemma arr_get_nibble clArray i :
  nibble_pixels clArray = true -> 0 <= i < Z.of_nat (length clArray) ->
  exists z, clArray !! Z.to_nat i = Some z /\ arr_get clArray i = Num z
            /\ 0 <= z < 16.
Proof.
  intros Hnib Hi. unfold arr_get.
  destruct (Z.leb_spec 0 i); [ | lia ].
  destruct (lookup_lt_is_Some_2 clArray (Z.to_nat i) ltac:(lia)) as [z Hz].
  rewrite Hz. exists z. split; [ reflexivity | split; [ reflexivity | ] ].
  unfold nibble_pixels in Hnib.
  assert (Hin : In z clArray)
    by (apply list_elem_of_In; eapply list_elem_of_lookup_2; exact Hz).
  pose proof (proj1 (forallb_forall _ _) Hnib z Hin) as Hb.
  cbv beta in Hb. lia.
Qed.

(** X3: at depth 4, for an even positive width (below 2^31), a positive
    height, width * height palette indices between 0 and 15 and a palette of
    any length, byte [col] of file row [row] is 16 times pixel [2 col] plus
    pixel [2 col + 1] of image row [height - 1 - row]: two pixels to a byte,
    the first in the high nibble, rows bottom-up. *)
Theorem X3_depth_4_two_pixels_per_byte clArray width height name palette s
    row col :
  0 < width < 2 ^ 31 -> width mod 2 = 0 -> 0 < height ->
  Z.of_nat (length clArray) = width * height ->
  nibble_pixels clArray = true ->
  0 <= row < height -> 0 <= 2 * col < width ->
  let g := getPixelBytes width height 4 in
  let p := 54 + 4 * Z.of_nat (length palette) + row * paddedRowSize g + col in
  p < fileByteSize width height 4 ->
  exists z0 z1,
    clArray !! Z.to_nat ((height - 1 - row) * width + 2 * col) = Some z0
    /\ clArray !! Z.to_nat ((height - 1 - row) * width + 2 * col + 1) = Some z1
    /\ u8_get (bytes_of (saveAsBMP clArray width height 4 name palette s)) p
       = Some (16 * z0 + z1).
Proof.
  intros Hw Hmod Hh Hlen Hnib Hrow Hcol g p Hp.
  pose proof (fileByteSize_header width height 4 ltac:(lia) Hh) as Hlow.
  destruct (saveAsBMP_bytes clArray width height 4 name palette s ltac:(lia))
    as (_ & Hi & _).
  rewrite Hi by (right; left; reflexivity).
  unfold filledBytes. cbn [Z.eqb Pos.eqb]. fold g.
  pose proof (deltaBase_range width height 4) as Hdelta. fold g in Hdelta.
  assert (Hbase : 2 * rowSizeBase g = width).
  { subst g. cbn. unfold round_div. Z.to_euclidean_division_equations. lia. }
  set (a := (height - 1 - row) * width + 2 * col).
  destruct (arr_get_nibble clArray a Hnib ltac:(subst a; nia))
    as (z0 & Hl0 & Hg0 & Hz0).
  destruct (arr_get_nibble clArray (a + 1) Hnib ltac:(subst a; nia))
    as (z1 & Hl1 & Hg1 & Hz1).
  exists z0, z1. split_and!; [ exact Hl0 | exact Hl1 | ].
  subst p. unfold paddedRowSize, PALETTE_BYTE_SIZE in *.
  replace (Z.of_nat (length palette) * 4)
    with (4 * Z.of_nat (length palette)) by lia.
  rewrite (fillColorData_4_rows _ clArray _ (rowSizeBase g) height
             (deltaBase g) row col)
    by (rewrite ?length_paletteBytes; nia).
  replace ((height - 1 - row) * (2 * rowSizeBase g) + 2 * col) with a
    by (subst a; nia).
  f_equal. apply pack2_nibbles; assumption.
Qed.

Lemma X3_witness :
  exists z0 z1,
    [1; 2; 3; 4; 5; 6; 7; 8] !! Z.to_nat ((2 - 1 - 0) * 4 + 2 * 1) = Some z0
    /\ [1; 2; 3; 4; 5; 6; 7; 8] !! Z.to_nat ((2 - 1 - 0) * 4 + 2 * 1 + 1)
       = Some z1
    /\ u8_get (bytes_of (saveAsBMP [1; 2; 3; 4; 5; 6; 7; 8] 4 2 4 "a.bmp" []
                           (initial_store false)))
         (54 + 4 * Z.of_nat (length (@nil rgb))
          + 0 * paddedRowSize (getPixelBytes 4 2 4) + 1)
       = Some (16 * z0 + z1).
Proof.
  apply (X3_depth_4_two_pixels_per_byte [1; 2; 3; 4; 5; 6; 7; 8] 4 2 "a.bmp" []
           (initial_store false) 0 1).
  - lia.
  - reflexivity.
  - lia.
  - reflexivity.
  - reflexivity.
  - lia.
  - lia.
  - vm_compute. reflexivity.
Defined.

(** ** The file at depth 1, for any width *)

(** X12: at depth 1, for pixels 0 or 1, a width of 4 or more (below 2^31)
    and a pixel array of any length, every byte saveAsBMP writes for the
    pixels packs the eight elements that start at
    [length - 8 * rowSizeBase * (row + 1) + 8 * col], the first in the most
    significant bit, an element before the start of the array counting as 0:
    the rows are groups of [8 * rowSizeBase] elements counted from the end
    of the array, which are the image rows only when the width is a multiple
    of 8. *)
Theorem X12_depth_1_bytes_for_any_width clArray width height name palette s
    row col t :
  binary_pixels clArray = true ->
  4 <= width < 2 ^ 31 -> 0 < height ->
  let g := getPixelBytes width height 1 in
  0 <= row -> 0 <= col < rowSizeBase g ->
  8 * (row * rowSizeBase g + col) < Z.of_nat (length clArray) ->
  0 <= t < 8 ->
  let p := 54 + 4 * Z.of_nat (length palette) + row * paddedRowSize g + col in
  p < fileByteSize width height 1 ->
  exists b,
    u8_get (bytes_of (saveAsBMP clArray width height 1 name palette s)) p
    = Some b
    /\ 0 <= b < 256
    /\ Z.b2z (Z.testbit b (7 - t))
       = num_of (arr_get clArray
                   (Z.of_nat (length clArray)
                    - 8 * rowSizeBase g * (row + 1) + 8 * col + t)).
Proof.
  intros Hbin Hw Hh g Hrow Hcol Hlt Ht p Hp.
  pose proof (fileByteSize_header width height 1 ltac:(lia) Hh) as Hlow.
  destruct (saveAsBMP_bytes clArray width height 1 name palette s ltac:(lia))
    as (_ & Hi & _).
  rewrite Hi by (left; reflexivity).
  unfold filledBytes. cbn [Z.eqb Pos.eqb]. fold g.
  pose proof (deltaBase_range width height 1) as Hdelta. fold g in Hdelta.
  assert (Hbase : 0 < rowSizeBase g <= 2 ^ 28).
  { subst g. rewrite rowSizeBase_1. Z.to_euclidean_division_equations. lia. }
  subst p. unfold paddedRowSize, PALETTE_BYTE_SIZE in *.
  replace (Z.of_nat (length palette) * 4)
    with (4 * Z.of_nat (length palette)) by lia.
  rewrite (fillColorData_1_rows_any _ clArray _ (rowSizeBase g) (deltaBase g)
             row col)
    by (rewrite ?length_paletteBytes; lia).
  eexists. split; [ reflexivity | ].
  apply pack8_bits_any; [ assumption | nia | assumption ].
Qed.

Lemma X12_witness :
  exists b,
    u8_get (bytes_of (saveAsBMP [1; 1; 1; 1; 1; 1; 1; 1; 1; 1; 1; 1] 12 1 1
                        "a.bmp" [] (initial_store false)))
      (54 + 4 * Z.of_nat (length (@nil rgb))
       + 0 * paddedRowSize (getPixelBytes 12 1 1) + 0) = Some b
    /\ 0 <= b < 256
    /\ Z.b2z (Z.testbit b (7 - 2))
       = num_of (arr_get [1; 1; 1; 1; 1; 1; 1; 1; 1; 1; 1; 1]
                   (Z.of_nat (length [1; 1; 1; 1; 1; 1; 1; 1; 1; 1; 1; 1])
                    - 8 * rowSizeBase (getPixelBytes 12 1 1) * (0 + 1)
                    + 8 * 0 + 2)).
Proof.
  apply (X12_depth_1_bytes_for_any_width [1; 1; 1; 1; 1; 1; 1; 1; 1; 1; 1; 1]
           12 1 "a.bmp" [] (initial_store false) 0 0 2).
  - reflexivity.
  - lia.
  - lia.
  - lia.
  - vm_compute. split; [ discriminate | reflexivity ].
  - vm_compute. reflexivity.
  - lia.
  - vm_compute. reflexivity.
Defined.
